(** * use-captured-state: the captured value store and its hooks

    A shallow embedding of the package's store (src/lib/index.js) and of the
    two earlier implementations bundled with it, followed by the properties
    of the store that its description states.

    Conventions of the embedding.
    - Arguments have their documented JSDoc types: a key is a [string], the
      argument of [batchUpdateKeys] is a plain object (name: value pairs,
      a [gmap string value]), the argument of [batchRemoveKeys] is an array
      of strings, [smart] is an optional boolean.
    - An object is its own properties, a [gmap string value], and its
      prototype.  Property reads, writes and [in] follow the prototype
      chain; the members of [Object.prototype] and [Array.prototype] are
      those of ECMAScript 2023.
    - Stored values are data of their own: the captured values object
      itself is not among the values handed to it.
    - A JavaScript function returns a [value]; a function without a
      [return] statement returns [VUndefined].
    - A call either completes normally or throws; the store is threaded
      through both outcomes. *)

From stdpp Require Import gmap strings list fin_maps pretty.

Local Open Scope string_scope.

(** ** JavaScript values *)

(** Numbers are the integer-valued ones; functions and symbols are not
    stored values of this model, so no stored value is callable. *)
#[warnings="-register-all"]
Inductive value : Type :=
| VUndefined
| VNull
| VBool (b : bool)
| VNum (n : Z)
| VStr (s : string)
| VObject (props : gmap string value)
| VArray (elems : list value).

(** ** Objects and their prototype chain *)

(** The string-keyed own properties of [Object.prototype].  All are
    writable data properties but [__proto__], which is an accessor. *)
Definition ObjectPrototype_keys : list string :=
  [ "constructor"; "__defineGetter__"; "__defineSetter__"; "hasOwnProperty";
    "__lookupGetter__"; "__lookupSetter__"; "isPrototypeOf";
    "propertyIsEnumerable"; "toString"; "valueOf"; "__proto__";
    "toLocaleString" ].

(** The string-keyed own properties of [Array.prototype], all writable
    data properties. *)
Definition ArrayPrototype_keys : list string :=
  [ "length"; "constructor"; "at"; "concat"; "copyWithin"; "fill"; "find";
    "findIndex"; "findLast"; "findLastIndex"; "lastIndexOf"; "pop"; "push";
    "reverse"; "shift"; "unshift"; "slice"; "sort"; "splice"; "includes";
    "indexOf"; "join"; "keys"; "entries"; "values"; "forEach"; "filter";
    "flat"; "flatMap"; "map"; "every"; "some"; "reduce"; "reduceRight";
    "toLocaleString"; "toString"; "toReversed"; "toSorted"; "toSpliced";
    "with" ].

(** What the prototype slot of an object can hold: [Object.prototype] (the
    prototype of an object literal and of a spread copy), [null], or a
    value that the [__proto__] setter has put there, which is a plain
    object, with [Object.prototype] above it, or an array, with
    [Array.prototype] and [Object.prototype] above it. *)
Inductive prototype : Type :=
| ObjectPrototype
| NullPrototype
| PlainObject (props : gmap string value)
| ArrayObject (elems : list value).

Record object : Type := {
  own : gmap string value;
  proto : prototype
}.

(** An object literal, or a copy [{ ...obj }], with the given properties. *)
Definition plain (props : gmap string value) : object :=
  {| own := props; proto := ObjectPrototype |}.

(** The index of an array that a key spells, if any. *)
Definition array_index (elems : list value) (key : string) : option nat :=
  snd <$> list_find (λ i, pretty i = key) (seq 0 (length elems)).

(** Does some object of the chain that starts at [p] have the property? *)
Definition inherits (p : prototype) (key : string) : bool :=
  match p with
  | ObjectPrototype => bool_decide (key ∈ ObjectPrototype_keys)
  | NullPrototype => false
  | PlainObject props =>
      bool_decide (is_Some (props !! key))
      || bool_decide (key ∈ ObjectPrototype_keys)
  | ArrayObject elems =>
      bool_decide (is_Some (array_index elems key))
      || bool_decide (key = "length")
      || bool_decide (key ∈ ArrayPrototype_keys)
      || bool_decide (key ∈ ObjectPrototype_keys)
  end.

(** [key in obj] *)
Definition HasProperty (obj : object) (key : string) : bool :=
  bool_decide (is_Some (own obj !! key)) || inherits (proto obj) key.

(** What a property read yields: a value of the model, or a built-in
    function or object of a standard prototype, given by its name. *)
Inductive reading : Type :=
| Data (v : value)
| Builtin (name : string).

(** A read that reaches [Object.prototype], for a receiver whose prototype
    is [p]: the [__proto__] getter yields the receiver's prototype. *)
Definition ObjectPrototype_get (p : prototype) (key : string) : reading :=
  if bool_decide (key = "__proto__") then
    match p with
    | ObjectPrototype => Builtin "Object.prototype"
    | NullPrototype => Data VNull
    | PlainObject props => Data (VObject props)
    | ArrayObject elems => Data (VArray elems)
    end
  else if bool_decide (key ∈ ObjectPrototype_keys)
  then Builtin ("Object.prototype." +:+ key)
  else Data VUndefined.

(** Property read [obj[key]]. *)
Definition Get (obj : object) (key : string) : reading :=
  match own obj !! key with
  | Some v => Data v
  | None =>
      match proto obj with
      | ObjectPrototype => ObjectPrototype_get (proto obj) key
      | NullPrototype => Data VUndefined
      | PlainObject props =>
          match props !! key with
          | Some v => Data v
          | None => ObjectPrototype_get (proto obj) key
          end
      | ArrayObject elems =>
          match array_index elems key with
          | Some i => Data (default VUndefined (elems !! i))
          | None =>
              if bool_decide (key = "length")
              then Data (VNum (Z.of_nat (length elems)))
              else if bool_decide (key ∈ ArrayPrototype_keys)
              then Builtin ("Array.prototype." +:+ key)
              else ObjectPrototype_get (proto obj) key
          end
      end
  end.

(** Does a write of [__proto__] that finds no own property reach the
    accessor of [Object.prototype]?  It does unless the chain ends before,
    or an object of the chain has a data property of that name. *)
Definition reaches_setter (p : prototype) : bool :=
  match p with
  | ObjectPrototype => true
  | NullPrototype => false
  | PlainObject props => negb (bool_decide (is_Some (props !! "__proto__")))
  | ArrayObject _ => true
  end.

(** The [__proto__] setter: an object or [null] becomes the prototype,
    any other value is ignored. *)
Definition set_prototype (p : prototype) (v : value) : prototype :=
  match v with
  | VNull => NullPrototype
  | VObject props => PlainObject props
  | VArray elems => ArrayObject elems
  | _ => p
  end.

(** Property write [obj[key] = v]: an own property is overwritten; a write
    of [__proto__] that reaches the accessor runs the setter and makes no
    own property; every other write makes an own property. *)
Definition PutValue (obj : object) (key : string) (v : value) : object :=
  if bool_decide (key = "__proto__")
     && negb (bool_decide (is_Some (own obj !! key)))
     && reaches_setter (proto obj)
  then {| own := own obj; proto := set_prototype (proto obj) v |}
  else {| own := <[key := v]> (own obj); proto := proto obj |}.

(** [delete obj[key]] *)
Definition Delete (obj : object) (key : string) : object :=
  {| own := delete key (own obj); proto := proto obj |}.

(** The keys a [for (const key in obj)] loop visits on an object literal,
    each once: its own properties, [Object.prototype] having no enumerable
    one. *)
Definition for_in_keys (obj : gmap string value) : list string :=
  (map_to_list obj).*1.

(** The read [obj[key]] of a property that is the object's own. *)
Definition own_value (obj : gmap string value) (key : string) : value :=
  default VUndefined (obj !! key).

(** ** Default parameters *)

(** A default parameter [p = d] takes its default when the argument is left
    out and when it is [undefined]. *)
Class Undefined (A : Type) := is_undefined : A → bool.

#[global] Instance value_undefined : Undefined value := λ v,
  match v with
  | VUndefined => true
  | _ => false
  end.

(** A boolean is never [undefined]. *)
#[global] Instance bool_undefined : Undefined bool := λ _, false.

Definition default_param {A} `{Undefined A} (d : A) (arg : option A) : A :=
  match arg with
  | Some a => if is_undefined a then d else a
  | None => d
  end.

(** ** Completions and the store monad *)

Inductive error : Type := TypeError.

Inductive completion (A : Type) : Type :=
| Normal (a : A)
| Throw (e : error).
Arguments Normal {A} a.
Arguments Throw {A} e.

#[global] Instance completion_ret : MRet completion := λ A a, Normal a.
#[global] Instance completion_bind : MBind completion := λ A B f c,
  match c with
  | Normal a => f a
  | Throw e => Throw e
  end.

(** A computation over a store [S]: the store that is left is returned also
    when the call throws. *)
Definition M (S A : Type) : Type := S → completion A * S.

#[global] Instance M_ret {S} : MRet (M S) := λ A a s, (Normal a, s).
#[global] Instance M_bind {S} : MBind (M S) := λ A B f m s,
  match m s with
  | (Normal a, s') => f a s'
  | (Throw e, s') => (Throw e, s')
  end.

Definition gets {S A} (f : S → A) : M S A := λ s, (Normal (f s), s).

(** An expression that may throw and does not touch the store. *)
Definition pure {S A} (c : completion A) : M S A := λ s, (c, s).

(** [list.forEach(x => body(x))], and the turns of a loop: the value of
    each turn is dropped, and a turn that throws ends the loop. *)
Fixpoint forEach {S A} (l : list A) (body : A → M S value) : M S value :=
  match l with
  | [] => mret VUndefined
  | x :: r => body x ;; forEach r body
  end.

(** [obj.hasOwnProperty(key)] on an object literal: the method is looked up
    on the object first, so an own property of that name shadows the one of
    [Object.prototype], and calling it throws, no stored value being
    callable. *)
Definition hasOwnProperty (obj : gmap string value) (key : string)
  : completion bool :=
  if bool_decide (is_Some (obj !! "hasOwnProperty")) then Throw TypeError
  else Normal (bool_decide (is_Some (obj !! key))).

(** ** Effects of the host framework

    An effect callback may return a destructor.  React keeps it, runs it
    before the effect runs again and when the component unmounts. *)
Section Effects.
Context {S : Type}.

Definition Destructor : Type := M S value.
Definition EffectCallback : Type := M S (option Destructor).

Definition commitUnmount (destroy : option Destructor) : M S value :=
  match destroy with
  | Some d => d
  | None => mret VUndefined
  end.

Definition commitMount (create : EffectCallback) : M S (option Destructor) :=
  create.

Definition commitUpdate (destroy : option Destructor) (create : EffectCallback)
  : M S (option Destructor) :=
  commitUnmount destroy ;; create.
End Effects.

(** [Object.is] on the values a field holds.  Two objects or arrays are taken
    to be different references. *)
Definition Object_is (a b : value) : bool :=
  match a, b with
  | VUndefined, VUndefined => true
  | VNull, VNull => true
  | VBool x, VBool y => bool_decide (x = y)
  | VNum x, VNum y => bool_decide (x = y)
  | VStr x, VStr y => bool_decide (x = y)
  | _, _ => false
  end.

(** ** The capability bundle

    The record that a provider publishes.  Every member is a JavaScript
    function, so each returns a [value]. *)
Module CaptureContextValue.
Record t (S : Type) : Type := Build {
  updateKey : string → value → M S value;
  batchUpdateKeys : gmap string value → M S value;
  removeKey : string → M S value;
  batchRemoveKeys : list string → M S value;
  getValues : M S value;
  forceRerender : option bool → M S value
}.
Arguments Build {S}.
Arguments updateKey {S}.
Arguments batchUpdateKeys {S}.
Arguments removeKey {S}.
Arguments batchRemoveKeys {S}.
Arguments getValues {S}.
Arguments forceRerender {S}.
End CaptureContextValue.

(** ** src/lib/index.js: the store kept in refs *)
Module RefStore.

(** What one [useCapturedProviderValue] instance owns: the [useState] cell
    [render], the object the ref [values] points to, as its own properties
    [values] and its prototype [values_prototype], the ref [staleState],
    and the number of re-renders of the provider that its [setRender] calls
    have caused. *)
Record Provider : Type := {
  render : bool;
  values : gmap string value;
  values_prototype : prototype;
  staleState : bool;
  rerenders : nat
}.

(** The first render: [useState(false)], [useRef({})], [useRef(false)]. *)
Definition initial : Provider :=
  {| render := false; values := ∅; values_prototype := ObjectPrototype;
     staleState := false; rerenders := 0 |}.

Abbreviation Op := (M Provider).

(** [values.current] *)
Definition current_values (s : Provider) : object :=
  {| own := values s; proto := values_prototype s |}.

(** [setRender(b)]: React stores the new state and re-renders the
    component, unless the new state is identical to the current one. *)
Definition setRender (b : bool) : Op value := λ s,
  if bool_decide (b = render s) then (Normal VUndefined, s)
  else (Normal VUndefined,
        {| render := b; values := values s;
           values_prototype := values_prototype s;
           staleState := staleState s; rerenders := S (rerenders s) |}).

(** [staleState.current = true]; the assignment is the arrow's value. *)
Definition makeStale : Op value := λ s,
  (Normal (VBool true),
   {| render := render s; values := values s;
      values_prototype := values_prototype s; staleState := true;
      rerenders := rerenders s |}).

(** [values.current[key] = value] *)
Definition assign (key : string) (v : value) : Op value := λ s,
  let obj := PutValue (current_values s) key v in
  (Normal v,
   {| render := render s; values := own obj; values_prototype := proto obj;
      staleState := staleState s; rerenders := rerenders s |}).

(** [delete values.current[key]] *)
Definition delete_property (key : string) : Op value := λ s,
  let obj := Delete (current_values s) key in
  (Normal (VBool true),
   {| render := render s; values := own obj; values_prototype := proto obj;
      staleState := staleState s; rerenders := rerenders s |}).

(** The object the ref points to is handed out as it is; as a value it is
    given by its own properties. *)
Definition getValues : Op value := gets (λ s, VObject (values s)).

(** [render] is the state of the render in which the closure was made. *)
Definition forceRerender (render : bool) (smart : option bool) : Op value :=
  let smart := default_param true smart in
  stale ← gets staleState;
  if smart && negb stale then mret VUndefined
  else setRender (negb render) ;; mret VUndefined.

Definition updateKey (key : string) (v : value) : Op value :=
  makeStale ;;
  assign key v ;;
  mret VUndefined.

Definition batchUpdateKeys (batchValues : gmap string value) : Op value :=
  makeStale ;;
  forEach (for_in_keys batchValues) (λ key,
    isOwn ← pure (hasOwnProperty batchValues key);
    if negb isOwn then mret VUndefined
    else
      let v := own_value batchValues key in
      updateKey key v) ;;
  getValues.

Definition removeKey (key : string) : Op value :=
  present ← gets (λ s, HasProperty (current_values s) key);
  if negb present then mret VUndefined
  else
    makeStale ;;
    delete_property key ;;
    mret VUndefined.

Definition batchRemoveKeys (keyList : list string) : Op value :=
  forEach keyList (λ key, removeKey key) ;;
  getValues.

(** The bundle a render of the provider builds; its closures see that
    render's [render] and the refs. *)
Definition useCapturedProviderValue (render : bool)
  : CaptureContextValue.t Provider :=
  CaptureContextValue.Build
    updateKey batchUpdateKeys removeKey batchRemoveKeys getValues
    (forceRerender render).

(** The bundle of the latest render. *)
Definition current (s : Provider) : CaptureContextValue.t Provider :=
  useCapturedProviderValue (render s).

(** Every member is [() => {}]: an arrow with an empty block body. *)
Definition captureDefaultValue : CaptureContextValue.t Provider :=
  CaptureContextValue.Build
    (λ _ _, mret VUndefined) (λ _, mret VUndefined) (λ _, mret VUndefined)
    (λ _, mret VUndefined) (mret VUndefined) (λ _, mret VUndefined).

(** [useContext(CaptureContext)]: the value of the nearest enclosing
    provider, the default when there is none. *)
Definition useCaptureContextValue
    (nearest : option (CaptureContextValue.t Provider))
  : CaptureContextValue.t Provider :=
  default captureDefaultValue nearest.

Definition useCapturedValues
    (nearest : option (CaptureContextValue.t Provider)) : Op value :=
  CaptureContextValue.getValues (useCaptureContextValue nearest).

(** *** The per-field hook *)

(** One mounted [useCapturedState]: its arguments, its [useState] cell and
    the destructor React holds for its effect. *)
Record Field : Type := {
  name : string;
  capturedState : value;
  destroy : option (@Destructor Provider)
}.

(** The effect callback: a block body without a [return]. *)
Definition effect (nearest : option (CaptureContextValue.t Provider))
    (name : string) (capturedState : value) : @EffectCallback Provider :=
  let capturedProviderValue := useCaptureContextValue nearest in
  CaptureContextValue.updateKey capturedProviderValue name capturedState ;;
  mret None.

(** First render and commit of [useCapturedState(name, defaultValue)]. *)
Definition mount (nearest : option (CaptureContextValue.t Provider))
    (name : string) (defaultValue : option value) : Op Field :=
  let defaultValue := default_param (VStr "") defaultValue in
  d ← commitMount (effect nearest name defaultValue);
  mret {| name := name; capturedState := defaultValue; destroy := d |}.

(** [setCapturedState(v)]: an identical state bails out; otherwise the
    field re-renders and, [capturedState] being the dependency, its effect
    runs again. *)
Definition setCapturedState (nearest : option (CaptureContextValue.t Provider))
    (f : Field) (v : value) : Op Field :=
  if Object_is v (capturedState f) then mret f
  else
    d ← commitUpdate (destroy f) (effect nearest (name f) v);
    mret {| name := name f; capturedState := v; destroy := d |}.

Definition unmount (f : Field) : Op value := commitUnmount (destroy f).

(** A field from its mount through a series of local changes. *)
Fixpoint changes (nearest : option (CaptureContextValue.t Provider))
    (f : Field) (vs : list value) : Op Field :=
  match vs with
  | [] => mret f
  | v :: r => f' ← setCapturedState nearest f v; changes nearest f' r
  end.

Definition lifetime (nearest : option (CaptureContextValue.t Provider))
    (name : string) (defaultValue : option value) (vs : list value)
  : Op Field :=
  f ← mount nearest name defaultValue; changes nearest f vs.

(** *** Calls on the store *)
Inductive call : Type :=
| UpdateKey (key : string) (v : value)
| BatchUpdateKeys (batchValues : gmap string value)
| RemoveKey (key : string)
| BatchRemoveKeys (keyList : list string)
| GetValues
| ForceRerender (smart : option bool).

Definition invoke (b : CaptureContextValue.t Provider) (c : call) : Op value :=
  match c with
  | UpdateKey key v => CaptureContextValue.updateKey b key v
  | BatchUpdateKeys batchValues => CaptureContextValue.batchUpdateKeys b batchValues
  | RemoveKey key => CaptureContextValue.removeKey b key
  | BatchRemoveKeys keyList => CaptureContextValue.batchRemoveKeys b keyList
  | GetValues => CaptureContextValue.getValues b
  | ForceRerender smart => CaptureContextValue.forceRerender b smart
  end.

(** A series of calls, each made through the bundle of the latest render;
    a call that throws leaves its store to the next one. *)
Fixpoint run (cs : list call) (s : Provider) : Provider :=
  match cs with
  | [] => s
  | c :: r => run r (invoke (current s) c s).2
  end.

(** *** The loops, one turn at a time

    The store a [removeKey] leaves, and the store one turn of the loop of
    [batchUpdateKeys] leaves when [hasOwnProperty] does not throw, as
    functions of the store before. *)
Definition removed (key : string) (s : Provider) : Provider :=
  {| render := render s; values := delete key (values s);
     values_prototype := values_prototype s;
     staleState := staleState s || HasProperty (current_values s) key;
     rerenders := rerenders s |}.

(** The store after a re-render that [setRender] has caused. *)
Definition rerendered (s : Provider) : Provider :=
  {| render := negb (render s); values := values s;
     values_prototype := values_prototype s;
     staleState := staleState s; rerenders := S (rerenders s) |}.

Definition merged (batchValues : gmap string value) (s : Provider)
    (key : string) : Provider :=
  if bool_decide (is_Some (batchValues !! key))
  then (updateKey key (own_value batchValues key) s).2
  else s.

End RefStore.

(** ** The earlier implementation: the store kept in a state cell

    [useCapturedProviderValue] holds the captured values in
    [useState({})]; every mutation hands [setCapturedValues] an updater that
    copies the old object and changes the copy.  The bundle carries the
    [values] of its render instead of a [getValues] function and has no
    [forceRerender]. *)
Module StateStore.

Abbreviation Op := (M object).

(** [useState({})] *)
Definition initial : object := plain ∅.

(** [setCapturedValues(updater)]: React applies the updater to the state
    it holds.  When the updater throws, the state stays as it was and the
    error comes out of the update. *)
Definition setCapturedValues (updater : object → completion object)
  : Op value := λ oldState,
  match updater oldState with
  | Normal newValue => (Normal VUndefined, newValue)
  | Throw e => (Throw e, oldState)
  end.

(** [for (const key of obj) body]: the statement asks [obj] for its
    [Symbol.iterator] method.  A plain object has none, so a TypeError is
    thrown before the body runs. *)
Definition for_of {A} (obj : gmap string value)
    (body : string → A → completion A) (acc : A) : completion A :=
  Throw TypeError.

Definition updateKey (key : string) (v : value) : Op value :=
  setCapturedValues (λ oldState,
    let newValue := plain (own oldState) in
    let newValue := PutValue newValue key v in
    mret newValue) ;;
  mret VUndefined.

Definition batchUpdateKeys (batchValues : gmap string value) : Op value :=
  setCapturedValues (λ oldState,
    let newValue := plain (own oldState) in
    newValue ← for_of batchValues (λ key newValue,
      isOwn ← hasOwnProperty batchValues key;
      if negb isOwn then mret newValue
      else mret (PutValue newValue key (own_value batchValues key))) newValue;
    mret newValue) ;;
  mret VUndefined.

Definition removeKey (key : string) : Op value :=
  setCapturedValues (λ oldState,
    let newValue := plain (own oldState) in
    let newValue := Delete newValue key in
    mret newValue) ;;
  mret VUndefined.

Definition batchRemoveKeys (keyList : list string) : Op value :=
  setCapturedValues (λ oldState,
    let newValue := plain (own oldState) in
    let newValue := foldl (λ newValue key, Delete newValue key) newValue keyList in
    mret newValue) ;;
  mret VUndefined.

Module Bundle.
Record t : Type := Build {
  updateKey : string → value → Op value;
  batchUpdateKeys : gmap string value → Op value;
  removeKey : string → Op value;
  batchRemoveKeys : list string → Op value;
  values : object
}.
End Bundle.

(** The bundle of a render whose state is [capturedValues]. *)
Definition useCapturedProviderValue (capturedValues : object) : Bundle.t :=
  Bundle.Build updateKey batchUpdateKeys removeKey batchRemoveKeys
    capturedValues.

Definition captureDefaultValue : Bundle.t :=
  Bundle.Build
    (λ _ _, mret VUndefined) (λ _, mret VUndefined) (λ _, mret VUndefined)
    (λ _, mret VUndefined) (plain ∅).

Definition useCaptureContextValue (nearest : option Bundle.t) : Bundle.t :=
  default captureDefaultValue nearest.

Definition useCapturedValues (nearest : option Bundle.t) : object :=
  Bundle.values (useCaptureContextValue nearest).

(** *** The per-field hook *)
Record Field : Type := {
  name : string;
  defaultValue : value;
  destroy : option (@Destructor object)
}.

(** The effect callback, with an empty dependency list. *)
Definition effect (nearest : option Bundle.t) (name : string)
    (defaultValue : value) : @EffectCallback object :=
  let updateKey := Bundle.updateKey (useCaptureContextValue nearest) in
  updateKey name defaultValue ;;
  mret None.

Definition mount (nearest : option Bundle.t) (name : string)
    (defaultValue : option value) : Op Field :=
  let defaultValue := default_param (VStr "") defaultValue in
  d ← commitMount (effect nearest name defaultValue);
  mret {| name := name; defaultValue := defaultValue; destroy := d |}.

(** What a render of the hook returns: the value and the setter. *)
Definition useCapturedState (nearest : option Bundle.t) (f : Field)
  : reading * (value → Op value) :=
  let capturedProviderValue := useCaptureContextValue nearest in
  let values := Bundle.values capturedProviderValue in
  let updateKey := Bundle.updateKey capturedProviderValue in
  let defined := HasProperty values (name f) in
  (if defined then Get values (name f) else Data (defaultValue f),
   λ val, updateKey (name f) val).

(** The setter called with each of [vs]; the effect does not run again. *)
Definition changes (nearest : option Bundle.t) (f : Field) (vs : list value)
  : Op Field :=
  forEach vs (useCapturedState nearest f).2 ;;
  mret f.

Definition lifetime (nearest : option Bundle.t) (name : string)
    (defaultValue : option value) (vs : list value) : Op Field :=
  f ← mount nearest name defaultValue; changes nearest f vs.

Definition unmount (f : Field) : Op value := commitUnmount (destroy f).

End StateStore.

(** ** The earliest implementation: [FormCaptureContext]

    The same state cell with [updateKey] as its only mutation. *)
Module FormStore.

Abbreviation Op := (M object).

(** [useState({})] *)
Definition initial : object := plain ∅.

Definition setCapturedValues (updater : object → completion object)
  : Op value := λ oldState,
  match updater oldState with
  | Normal newValue => (Normal VUndefined, newValue)
  | Throw e => (Throw e, oldState)
  end.

Definition updateKey (key : string) (v : value) : Op value :=
  setCapturedValues (λ oldState,
    let newValue := plain (own oldState) in
    let newValue := PutValue newValue key v in
    mret newValue) ;;
  mret VUndefined.

Module Bundle.
Record t : Type := Build {
  updateKey : string → value → Op value;
  values : object
}.
End Bundle.

Definition useCapturedProviderValue (capturedValues : object) : Bundle.t :=
  Bundle.Build updateKey capturedValues.

(** The default of [createContext]. *)
Definition FormCaptureContext : Bundle.t :=
  Bundle.Build (λ _ _, mret VUndefined) (plain ∅).

Definition useContext (nearest : option Bundle.t) : Bundle.t :=
  default FormCaptureContext nearest.

Definition useCapturedValues (nearest : option Bundle.t) : object :=
  Bundle.values (useContext nearest).

Record Field : Type := {
  name : string;
  defaultValue : value;
  destroy : option (@Destructor object)
}.

Definition effect (nearest : option Bundle.t) (name : string)
    (defaultValue : value) : @EffectCallback object :=
  let updateKey := Bundle.updateKey (useContext nearest) in
  updateKey name defaultValue ;;
  mret None.

Definition mount (nearest : option Bundle.t) (name : string)
    (defaultValue : option value) : Op Field :=
  let defaultValue := default_param (VStr "") defaultValue in
  d ← commitMount (effect nearest name defaultValue);
  mret {| name := name; defaultValue := defaultValue; destroy := d |}.

Definition useCapturedState (nearest : option Bundle.t) (f : Field)
  : reading * (value → Op value) :=
  let capturedProviderValue := useContext nearest in
  let values := Bundle.values capturedProviderValue in
  let updateKey := Bundle.updateKey capturedProviderValue in
  let defined := HasProperty values (name f) in
  (if defined then Get values (name f) else Data (defaultValue f),
   λ val, updateKey (name f) val).

Definition changes (nearest : option Bundle.t) (f : Field) (vs : list value)
  : Op Field :=
  forEach vs (useCapturedState nearest f).2 ;;
  mret f.

Definition lifetime (nearest : option Bundle.t) (name : string)
    (defaultValue : option value) (vs : list value) : Op Field :=
  f ← mount nearest name defaultValue; changes nearest f vs.

Definition unmount (f : Field) : Op value := commitUnmount (destroy f).

End FormStore.

(** ** A sample store *)

(** A provider after its first render, holding three captured values. *)
Definition sample : RefStore.Provider :=
  {| RefStore.render := false;
     RefStore.values :=
       {[ "first" := VStr "A"; "second" := VStr ""; "third" := VNum 3 ]};
     RefStore.values_prototype := ObjectPrototype;
     RefStore.staleState := false;
     RefStore.rerenders := 0 |}.

(** A form of two fields under one provider of src/lib/index.js: the field
    hook [("first", "A")] mounts, the field hook [("second")] mounts with no
    default, and the second field is set to ["B"]. *)
Definition form : RefStore.Op RefStore.Field :=
  let provider := Some (RefStore.current RefStore.initial) in
  RefStore.mount provider "first" (Some (VStr "A")) ;;
  second ← RefStore.mount provider "second" None;
  RefStore.setCapturedState provider second (VStr "B").

(** ** Kinds of calls *)

(** The calls that ask for a re-render. *)
Definition forces (c : RefStore.call) : bool :=
  match c with
  | RefStore.ForceRerender _ => true
  | _ => false
  end.

(** The calls that only read or refresh smartly: [getValues()],
    [forceRerender()] and [forceRerender(true)]. *)
Definition quiet (c : RefStore.call) : bool :=
  match c with
  | RefStore.GetValues => true
  | RefStore.ForceRerender None => true
  | RefStore.ForceRerender (Some true) => true
  | _ => false
  end.

(** * Properties *)

(** ** The form, step by step *)

Example first_field_registers :
  RefStore.values
    (RefStore.mount (Some (RefStore.current RefStore.initial))
       "first" (Some (VStr "A")) RefStore.initial).2
  = {[ "first" := VStr "A" ]}.
Proof. reflexivity. Qed.

Example form_captures_both_fields :
  ∃ f s, form RefStore.initial = (Normal f, s) ∧
         RefStore.capturedState f = VStr "B" ∧
         RefStore.values s !! "first" = Some (VStr "A") ∧
         RefStore.values s !! "second" = Some (VStr "B") ∧
         RefStore.unmount f s = (Normal VUndefined, s).
Proof. eexists _, _. repeat split. Qed.

Example updateKey_overwrites :
  RefStore.values (RefStore.updateKey "second" (VStr "B") sample).2
  = {[ "first" := VStr "A"; "second" := VStr "B"; "third" := VNum 3 ]}.
Proof. reflexivity. Qed.

Example batchUpdateKeys_sample :
  RefStore.batchUpdateKeys
    {[ "second" := VStr "B"; "fourth" := VNull ]} sample
  = (Normal (VObject {[ "first" := VStr "A"; "second" := VStr "B";
                        "third" := VNum 3; "fourth" := VNull ]}),
     {| RefStore.render := false;
        RefStore.values := {[ "first" := VStr "A"; "second" := VStr "B";
                              "third" := VNum 3; "fourth" := VNull ]};
        RefStore.values_prototype := ObjectPrototype;
        RefStore.staleState := true; RefStore.rerenders := 0 |}).
Proof. reflexivity. Qed.

Example removeKey_present :
  RefStore.removeKey "third" sample
  = (Normal VUndefined,
     {| RefStore.render := false;
        RefStore.values := {[ "first" := VStr "A"; "second" := VStr "" ]};
        RefStore.values_prototype := ObjectPrototype;
        RefStore.staleState := true; RefStore.rerenders := 0 |}).
Proof. reflexivity. Qed.

Example removeKey_absent :
  RefStore.removeKey "fourth" sample = (Normal VUndefined, sample).
Proof. reflexivity. Qed.

Example forceRerender_clean :
  RefStore.forceRerender false None sample = (Normal VUndefined, sample) ∧
  RefStore.forceRerender false (Some false) sample
  = (Normal VUndefined, RefStore.rerendered sample).
Proof. split; reflexivity. Qed.

(** A write of [__proto__] with a primitive stores nothing; with [null] it
    takes the prototype away, and the next such write makes an own
    property. *)
Example updateKey_proto :
  RefStore.updateKey "__proto__" (VStr "A") RefStore.initial
  = (Normal VUndefined, (RefStore.makeStale RefStore.initial).2) ∧
  RefStore.values_prototype
    (RefStore.updateKey "__proto__" VNull RefStore.initial).2 = NullPrototype ∧
  RefStore.values
    (RefStore.run [RefStore.UpdateKey "__proto__" VNull;
                   RefStore.UpdateKey "__proto__" (VObject ∅)]
       RefStore.initial)
  = {[ "__proto__" := VObject ∅ ]}.
Proof. repeat split. Qed.

(** Once the prototype is gone, the store of src/lib/index.js takes
    [__proto__] as an entry, while the copy that the state-cell store makes
    has [Object.prototype] again and takes none. *)
Example updateKey_proto_without_prototype :
  RefStore.values
    (RefStore.updateKey "__proto__" (VStr "A")
       (RefStore.updateKey "__proto__" VNull RefStore.initial).2).2
  = {[ "__proto__" := VStr "A" ]} ∧
  own (StateStore.updateKey "__proto__" (VStr "A")
         (RefStore.current_values
            (RefStore.updateKey "__proto__" VNull RefStore.initial).2)).2
  = ∅.
Proof. split; reflexivity. Qed.

(** An inherited name is [in] the empty store. *)
Example toString_in_empty_store :
  HasProperty (RefStore.current_values RefStore.initial) "toString" = true ∧
  Get (RefStore.current_values RefStore.initial) "toString"
  = Builtin "Object.prototype.toString" ∧
  HasProperty (RefStore.current_values RefStore.initial) "first" = false.
Proof. repeat split. Qed.

(** ** Objects *)
Section Objects.

Lemma PutValue_ordinary (obj : object) key v :
  key ≠ "__proto__" →
  PutValue obj key v = {| own := <[key := v]> (own obj); proto := proto obj |}.
Proof.
  intros Hk. unfold PutValue. by rewrite bool_decide_eq_false_2.
Qed.

(** A write leaves every other own property as it is. *)
Lemma PutValue_lookup_ne (obj : object) key k v :
  k ≠ key → own (PutValue obj key v) !! k = own obj !! k.
Proof.
  intros Hk. unfold PutValue.
  destruct (_ && _); cbn [own]; [done|]. by rewrite lookup_insert_ne.
Qed.

(** A write of an own property, and a write of any key but [__proto__],
    leaves the prototype as it is. *)
Lemma PutValue_proto (obj : object) key v :
  key ≠ "__proto__" → proto (PutValue obj key v) = proto obj.
Proof. intros Hk. by rewrite PutValue_ordinary. Qed.

Lemma PutValue_commute (obj : object) k1 k2 v1 v2 :
  k1 ≠ k2 →
  PutValue (PutValue obj k1 v1) k2 v2 = PutValue (PutValue obj k2 v2) k1 v1.
Proof.
  intros Hne. unfold PutValue.
  destruct (bool_decide (k1 = "__proto__")) eqn:E1;
    destruct (bool_decide (k2 = "__proto__")) eqn:E2.
  - apply bool_decide_eq_true in E1, E2. congruence.
  - apply bool_decide_eq_true in E1. subst k1. cbn [andb].
    destruct (negb (bool_decide (is_Some (own obj !! "__proto__")))
              && reaches_setter (proto obj)) eqn:E; cbn [own proto andb].
    + rewrite lookup_insert_ne by done. by rewrite E.
    + rewrite lookup_insert_ne by done. rewrite E.
      by rewrite insert_insert_ne.
  - apply bool_decide_eq_true in E2. subst k2. cbn [andb].
    destruct (negb (bool_decide (is_Some (own obj !! "__proto__")))
              && reaches_setter (proto obj)) eqn:E; cbn [own proto andb].
    + rewrite lookup_insert_ne by done. by rewrite E.
    + rewrite lookup_insert_ne by done. rewrite E.
      by rewrite insert_insert_ne.
  - cbn [andb own proto]. by rewrite insert_insert_ne.
Qed.

Lemma HasProperty_own (obj : object) key :
  is_Some (own obj !! key) → HasProperty obj key = true.
Proof. intros H. unfold HasProperty. by rewrite bool_decide_eq_true_2. Qed.

Lemma HasProperty_false (obj : object) key :
  HasProperty obj key = false → own obj !! key = None.
Proof.
  unfold HasProperty. intros [H _]%orb_false_iff.
  apply bool_decide_eq_false in H. by apply eq_None_not_Some.
Qed.

Lemma HasProperty_delete_ne (o : gmap string value) p a k :
  a ≠ k →
  HasProperty {| own := delete a o; proto := p |} k
  = HasProperty {| own := o; proto := p |} k.
Proof.
  intros Hne. unfold HasProperty. cbn [own proto].
  by rewrite lookup_delete_ne.
Qed.

Lemma elem_of_for_in_keys (batchValues : gmap string value) k :
  k ∈ for_in_keys batchValues ↔ is_Some (batchValues !! k).
Proof.
  unfold for_in_keys. rewrite list_elem_of_fmap. split.
  - intros [[k' v] [-> Hin]]. apply elem_of_map_to_list in Hin. eauto.
  - intros [v Hv]. exists (k, v). split; [done|].
    by apply elem_of_map_to_list.
Qed.

Lemma existsb_Permutation {A} (f : A → bool) (l l' : list A) :
  l ≡ₚ l' → existsb f l = existsb f l'.
Proof.
  induction 1 as [|x l l' _ IH|x y l|l l' l'' _ IH1 _ IH2]; simpl.
  - reflexivity.
  - by rewrite IH.
  - by destruct (f x), (f y).
  - by rewrite IH1.
Qed.

Lemma existsb_false_elem {A} (f : A → bool) (l : list A) (x : A) :
  existsb f l = false → x ∈ l → f x = false.
Proof.
  induction l as [|a l IH]; simpl; intros He Hin.
  - by apply elem_of_nil in Hin.
  - apply orb_false_iff in He as [Ha Hl].
    apply elem_of_cons in Hin as [->|Hin]; auto.
Qed.

Lemma default_last_cons {A} (x v : A) (l : list A) :
  default x (last (v :: l)) = default v (last l).
Proof. rewrite last_cons. by destruct (last l). Qed.

Lemma Object_is_eq (a b : value) : Object_is a b = true → a = b.
Proof.
  destruct a, b; simpl; try discriminate; try done;
    intros ?%bool_decide_eq_true; congruence.
Qed.

Lemma forEach_completes {S A} (body : A → M S value) (l : list A) :
  (∀ x s, ∃ v s', body x s = (Normal v, s')) →
  ∀ s, ∃ s', forEach l body s = (Normal VUndefined, s').
Proof.
  intros Hb. induction l as [|x l IH]; intros s; [by eexists|].
  cbn [forEach]. unfold mbind, M_bind.
  destruct (Hb x s) as (v & s1 & ->). apply IH.
Qed.

Lemma forEach_inert {S A} (l : list A) (s : S) :
  forEach l (λ _, mret VUndefined) s = (Normal VUndefined, s).
Proof. induction l as [|x l IH]; [done|]. cbn [forEach]. apply IH. Qed.

End Objects.

(** ** How the operations of src/lib/index.js run *)
Section RefStoreRuns.
Import RefStore.

Lemma updateKey_run key v s :
  updateKey key v s =
    (Normal VUndefined,
     {| render := render s;
        values := own (PutValue (current_values s) key v);
        values_prototype := proto (PutValue (current_values s) key v);
        staleState := true; rerenders := rerenders s |}).
Proof. reflexivity. Qed.

(** A write of any key but [__proto__] makes an own property. *)
Lemma updateKey_ordinary key v s :
  key ≠ "__proto__" →
  updateKey key v s =
    (Normal VUndefined,
     {| render := render s; values := <[key := v]> (values s);
        values_prototype := values_prototype s;
        staleState := true; rerenders := rerenders s |}).
Proof. intros Hk. rewrite updateKey_run. by rewrite PutValue_ordinary. Qed.

Lemma removeKey_run key s :
  removeKey key s =
    (Normal VUndefined,
     if HasProperty (current_values s) key
     then {| render := render s; values := delete key (values s);
             values_prototype := values_prototype s;
             staleState := true; rerenders := rerenders s |}
     else s).
Proof.
  unfold removeKey, mbind, M_bind, gets. simpl.
  destruct (HasProperty (current_values s) key); reflexivity.
Qed.

Lemma forceRerender_run r smart s :
  forceRerender r smart s =
    if default_param true smart && negb (staleState s)
    then (Normal VUndefined, s)
    else (Normal VUndefined, (setRender (negb r) s).2).
Proof.
  unfold forceRerender, mbind, M_bind, gets. simpl.
  destruct (default_param true smart && negb (staleState s)); [reflexivity|].
  unfold setRender. destruct (bool_decide _); reflexivity.
Qed.

(** A re-render flips [render] and is counted, when the closure is the one
    of the latest render. *)
Lemma setRender_current s :
  setRender (negb (render s)) s = (Normal VUndefined, rerendered s).
Proof.
  unfold setRender. rewrite bool_decide_eq_false_2; [reflexivity|].
  destruct (render s); discriminate.
Qed.

(** Called through a closure of an earlier render, whose [render] is the
    negation of the current one, [setRender] gets the current state and
    React bails out. *)
Lemma setRender_outdated s :
  setRender (negb (negb (render s))) s = (Normal VUndefined, s).
Proof.
  unfold setRender. rewrite negb_involutive.
  by rewrite bool_decide_eq_true_2.
Qed.

Lemma forceRerender_current smart s :
  forceRerender (render s) smart s =
    (Normal VUndefined,
     if default_param true smart && negb (staleState s) then s
     else rerendered s).
Proof.
  rewrite forceRerender_run, setRender_current.
  by destruct (default_param true smart && negb (staleState s)).
Qed.

(** Through a closure of the render before, [forceRerender(false)] hands
    [setRender] the state React already holds, and no re-render follows. *)
Lemma forceRerender_outdated s :
  forceRerender (negb (render s)) (Some false) s = (Normal VUndefined, s).
Proof.
  rewrite forceRerender_run. unfold default_param. simpl.
  by rewrite setRender_outdated.
Qed.

Lemma removeKey_removed key s :
  removeKey key s = (Normal VUndefined, removed key s).
Proof.
  rewrite removeKey_run. unfold removed.
  destruct (HasProperty (current_values s) key) eqn:E.
  - rewrite orb_true_r. reflexivity.
  - apply HasProperty_false in E. cbn [own current_values] in E.
    rewrite delete_id by done.
    rewrite orb_false_r. destruct s; reflexivity.
Qed.

Lemma forEach_removeKey keyList s :
  forEach keyList (λ key, removeKey key) s =
    (Normal VUndefined, foldl (λ s key, removed key s) s keyList).
Proof.
  revert s. induction keyList as [|k l IH]; intros s; [reflexivity|].
  simpl. unfold mbind, M_bind. rewrite removeKey_removed. apply IH.
Qed.

Lemma batchRemoveKeys_run keyList s :
  batchRemoveKeys keyList s =
    (Normal (VObject (values (foldl (λ s key, removed key s) s keyList))),
     foldl (λ s key, removed key s) s keyList).
Proof.
  unfold batchRemoveKeys, mbind, M_bind. by rewrite forEach_removeKey.
Qed.

Lemma foldl_removed_frame keyList s :
  render (foldl (λ s key, removed key s) s keyList) = render s ∧
  rerenders (foldl (λ s key, removed key s) s keyList) = rerenders s ∧
  values_prototype (foldl (λ s key, removed key s) s keyList)
  = values_prototype s.
Proof.
  revert s. induction keyList as [|k l IH]; intros s; [done|].
  simpl. destruct (IH (removed k s)) as (-> & -> & ->). done.
Qed.

Lemma foldl_removed_lookup keyList s k :
  values (foldl (λ s key, removed key s) s keyList) !! k =
    if decide (k ∈ keyList) then None else values s !! k.
Proof.
  revert s. induction keyList as [|a l IH]; intros s.
  - simpl. destruct (decide (k ∈ [])) as [Hin|Hin]; [|done].
    by apply elem_of_nil in Hin.
  - cbn [foldl]. rewrite IH. cbn [values removed].
    destruct (decide (k ∈ l)) as [Hin|Hin].
    + rewrite decide_True; [done|]. by apply list_elem_of_further.
    + destruct (decide (k = a)) as [->|Hne].
      * rewrite decide_True by apply list_elem_of_here.
        apply lookup_delete_eq.
      * rewrite decide_False; [by rewrite lookup_delete_ne|].
        rewrite elem_of_cons. tauto.
Qed.

Lemma foldl_removed_values keyList s :
  values (foldl (λ s key, removed key s) s keyList)
  = foldl (λ m key, delete key m) (values s) keyList.
Proof.
  revert s. induction keyList as [|k l IH]; intros s; [done|].
  cbn [foldl]. by rewrite IH.
Qed.

Lemma foldl_removed_stale keyList s :
  staleState (foldl (λ s key, removed key s) s keyList) =
    staleState s || existsb (HasProperty (current_values s)) keyList.
Proof.
  revert s. induction keyList as [|a l IH]; intros s; simpl.
  - by rewrite orb_false_r.
  - rewrite IH. simpl. rewrite <- orb_assoc. f_equal.
    destruct (HasProperty (current_values s) a) eqn:Ha; simpl; [done|].
    apply HasProperty_false in Ha. cbn [own current_values] in Ha.
    unfold current_values. cbn [values values_prototype removed].
    by rewrite delete_id.
Qed.

End RefStoreRuns.

Section RefStoreBatchUpdate.
Import RefStore.
Variable batchValues : gmap string value.

(** An own property [hasOwnProperty] of the argument shadows the method:
    the first turn of the loop throws, after [makeStale] and before any
    key is written. *)
Lemma batchUpdateKeys_shadowed s :
  is_Some (batchValues !! "hasOwnProperty") →
  batchUpdateKeys batchValues s = (Throw TypeError, (makeStale s).2).
Proof.
  intros Hs. unfold batchUpdateKeys.
  unfold mbind at 1, M_bind at 1. cbn [makeStale].
  destruct (for_in_keys batchValues) as [|k l] eqn:E.
  - apply elem_of_for_in_keys in Hs. rewrite E in Hs.
    by apply elem_of_nil in Hs.
  - cbn [forEach]. unfold mbind, M_bind, pure, hasOwnProperty.
    by rewrite bool_decide_eq_true_2.
Qed.

Lemma turn_run key s :
  batchValues !! "hasOwnProperty" = None →
  (pure (hasOwnProperty batchValues key) ≫= λ isOwn : bool,
     if negb isOwn then mret VUndefined
     else let v := own_value batchValues key in updateKey key v) s
  = (Normal VUndefined, merged batchValues s key).
Proof.
  intros Hn. unfold mbind, M_bind, pure, hasOwnProperty, merged.
  rewrite bool_decide_eq_false_2 by (rewrite Hn; by intros [??]).
  by destruct (bool_decide (is_Some (batchValues !! key))).
Qed.

Lemma forEach_updateKey keys s :
  batchValues !! "hasOwnProperty" = None →
  forEach keys (λ key,
    isOwn ← pure (hasOwnProperty batchValues key);
    if negb isOwn then mret VUndefined
    else let v := own_value batchValues key in updateKey key v) s =
  (Normal VUndefined, foldl (merged batchValues) s keys).
Proof.
  intros Hn. revert s. induction keys as [|k l IH]; intros s; [reflexivity|].
  cbn [forEach foldl]. unfold mbind at 1, M_bind at 1.
  rewrite turn_run by done. apply IH.
Qed.

Lemma merged_frame s k :
  render (merged batchValues s k) = render s ∧
  rerenders (merged batchValues s k) = rerenders s ∧
  (staleState s = true → staleState (merged batchValues s k) = true).
Proof. unfold merged. by destruct (bool_decide _). Qed.

Lemma foldl_merged_frame keys s :
  render (foldl (merged batchValues) s keys) = render s ∧
  rerenders (foldl (merged batchValues) s keys) = rerenders s ∧
  (staleState s = true →
   staleState (foldl (merged batchValues) s keys) = true).
Proof.
  revert s. induction keys as [|k l IH]; intros s; [done|].
  cbn [foldl]. destruct (IH (merged batchValues s k)) as (-> & -> & Hst).
  destruct (merged_frame s k) as (-> & -> & Hs). auto.
Qed.

Lemma merged_lookup_ne s key k :
  k ≠ key → values (merged batchValues s key) !! k = values s !! k.
Proof.
  intros Hne. unfold merged. destruct (bool_decide _); [|done].
  rewrite updateKey_run. cbn [snd values].
  by rewrite PutValue_lookup_ne.
Qed.

(** A key that the loop does not visit keeps its entry. *)
Lemma foldl_merged_lookup_notin keys s k :
  k ∉ keys → values (foldl (merged batchValues) s keys) !! k = values s !! k.
Proof.
  revert s. induction keys as [|a l IH]; intros s Hk; [done|].
  apply not_elem_of_cons in Hk as [Hne Hl].
  cbn [foldl]. rewrite IH by done. by apply merged_lookup_ne.
Qed.

(** A key other than [__proto__] that the loop visits has the argument's
    value afterwards. *)
Lemma foldl_merged_lookup keys s k :
  k ≠ "__proto__" →
  values (foldl (merged batchValues) s keys) !! k =
    if decide (k ∈ keys) then (batchValues ∪ values s) !! k
    else values s !! k.
Proof.
  intros Hp. revert s. induction keys as [|a l IH]; intros s.
  - simpl. destruct (decide (k ∈ [])) as [Hin|Hin]; [|done].
    by apply elem_of_nil in Hin.
  - cbn [foldl]. rewrite IH.
    assert (Hun : ∀ m1 m2 : gmap string value,
               m1 !! k = m2 !! k →
               (batchValues ∪ m1) !! k = (batchValues ∪ m2) !! k).
    { intros m1 m2 E. destruct (batchValues !! k) as [v|] eqn:Hk.
      - by rewrite !(lookup_union_Some_l _ _ _ v).
      - by rewrite !lookup_union_r. }
    destruct (decide (k = a)) as [<-|Hne].
    + rewrite (decide_True (P := k ∈ k :: l)) by apply list_elem_of_here.
      assert (Hm : (batchValues ∪ values (merged batchValues s k)) !! k
                   = (batchValues ∪ values s) !! k
                   ∧ values (merged batchValues s k) !! k
                     = (batchValues ∪ values s) !! k).
      { unfold merged, own_value.
        destruct (batchValues !! k) as [v|] eqn:Hk.
        - rewrite bool_decide_eq_true_2 by eauto.
          rewrite (updateKey_ordinary k) by done. cbn [snd values default].
          rewrite !(lookup_union_Some_l _ _ _ v) by done.
          by rewrite lookup_insert_eq.
        - rewrite bool_decide_eq_false_2 by (by intros [??]).
          by rewrite lookup_union_r. }
      destruct Hm as [-> ->]. by destruct (decide (k ∈ l)).
    + pose proof (merged_lookup_ne s a k Hne) as Heq.
      destruct (decide (k ∈ l)) as [Hin|Hin].
      * rewrite decide_True by (by apply list_elem_of_further).
        by apply Hun.
      * rewrite decide_False; [done|]. rewrite elem_of_cons. tauto.
Qed.

Lemma merged_proto s key :
  key ≠ "__proto__" →
  values_prototype (merged batchValues s key) = values_prototype s.
Proof.
  intros Hk. unfold merged. destruct (bool_decide _); [|done].
  by rewrite (updateKey_ordinary key).
Qed.

Lemma foldl_merged_proto keys s :
  "__proto__" ∉ keys →
  values_prototype (foldl (merged batchValues) s keys) = values_prototype s.
Proof.
  revert s. induction keys as [|a l IH]; intros s Hk; [done|].
  apply not_elem_of_cons in Hk as [Hne Hl].
  cbn [foldl]. rewrite IH by done. by apply merged_proto.
Qed.

(** The whole call, when [hasOwnProperty] is not shadowed. *)
Lemma batchUpdateKeys_run s :
  batchValues !! "hasOwnProperty" = None →
  batchUpdateKeys batchValues s =
    (Normal (VObject (values (foldl (merged batchValues) (makeStale s).2
                                (for_in_keys batchValues)))),
     foldl (merged batchValues) (makeStale s).2 (for_in_keys batchValues)).
Proof.
  intros Hn. unfold batchUpdateKeys.
  unfold mbind at 1, M_bind at 1. cbn [makeStale].
  unfold mbind at 1, M_bind at 1. by rewrite forEach_updateKey.
Qed.

(** With neither [hasOwnProperty] nor [__proto__] among its keys the
    argument is merged over the store. *)
Lemma batchUpdateKeys_ordinary s :
  batchValues !! "hasOwnProperty" = None →
  batchValues !! "__proto__" = None →
  batchUpdateKeys batchValues s =
    (Normal (VObject (batchValues ∪ values s)),
     {| render := render s; values := batchValues ∪ values s;
        values_prototype := values_prototype s;
        staleState := true; rerenders := rerenders s |}).
Proof.
  intros Hn Hp. rewrite batchUpdateKeys_run by done. cbn [makeStale snd].
  set (s0 := {| render := render s; values := values s;
                values_prototype := values_prototype s; staleState := true;
                rerenders := rerenders s |}).
  destruct (foldl_merged_frame (for_in_keys batchValues) s0)
    as (Hr & Hc & Hst).
  assert (Hnotin : "__proto__" ∉ for_in_keys batchValues).
  { rewrite elem_of_for_in_keys, Hp. by intros [??]. }
  pose proof (foldl_merged_proto (for_in_keys batchValues) s0 Hnotin) as Hpr.
  assert (Hv : values (foldl (merged batchValues) s0 (for_in_keys batchValues))
               = batchValues ∪ values s).
  { apply map_eq. intros k. destruct (decide (k = "__proto__")) as [->|Hk].
    - rewrite foldl_merged_lookup_notin by done.
      by rewrite lookup_union_r.
    - rewrite foldl_merged_lookup by done.
      destruct (decide _) as [Hin|Hin]; [done|].
      rewrite elem_of_for_in_keys in Hin.
      rewrite lookup_union_r; [done|]. by apply eq_None_not_Some. }
  specialize (Hst eq_refl).
  destruct (foldl (merged batchValues) s0 (for_in_keys batchValues))
    as [r v p st n].
  simpl in *. subst. reflexivity.
Qed.

(** Thrown or not, the call leaves the store stale and does not
    re-render; every key it does not name keeps its entry. *)
Lemma batchUpdateKeys_frame s :
  ∃ c s',
    batchUpdateKeys batchValues s = (c, s') ∧
    staleState s' = true ∧ render s' = render s ∧
    rerenders s' = rerenders s ∧
    (∀ k, batchValues !! k = None → values s' !! k = values s !! k).
Proof.
  destruct (batchValues !! "hasOwnProperty") as [v|] eqn:Hn.
  - eexists _, _. split; [apply batchUpdateKeys_shadowed; eauto|]. done.
  - eexists _, _. split; [by apply batchUpdateKeys_run|].
    destruct (foldl_merged_frame (for_in_keys batchValues) (makeStale s).2)
      as (Hr & Hc & Hst).
    split; [by apply Hst|]. split; [done|]. split; [done|].
    intros k Hk. rewrite foldl_merged_lookup_notin; [done|].
    rewrite elem_of_for_in_keys, Hk. by intros [??].
Qed.

End RefStoreBatchUpdate.

(** ** The store of src/lib/index.js *)
Section RefStoreProperties.
Import RefStore.







(** [forceRerender] through the bundle of the latest render: with [smart]
    true (given or by default) it re-renders exactly when the store is
    stale and otherwise leaves everything, the stale flag included, as it
    is; with [smart] false it re-renders whatever the flag. *)
Theorem forceRerender_smart (s : Provider) :
  let forceRerender := CaptureContextValue.forceRerender (current s) in
  forceRerender (Some true) s =
    (Normal VUndefined, if staleState s then rerendered s else s) ∧
  forceRerender None s =
    (Normal VUndefined, if staleState s then rerendered s else s) ∧
  forceRerender (Some false) s = (Normal VUndefined, rerendered s) ∧
  staleState (rerendered s) = staleState s ∧
  rerenders (rerendered s) = S (rerenders s).
Proof.
  cbn [current useCapturedProviderValue CaptureContextValue.forceRerender].
  rewrite !forceRerender_current. unfold default_param. simpl.
  by destruct (staleState s).
Qed.

(** C7: evaluation through the bundle of the first render, kept across a
    re-render.  [forceRerender(false)] through it re-renders once; called
    again through the same bundle it hands [setRender] the state React
    already holds and nothing is re-rendered, and after a mutation
    [forceRerender(true)] through it does not re-render either, although
    the store is stale. *)
Theorem forceRerender_outdated_bundle :
  let first := useCapturedProviderValue (render initial) in
  let s1 := (CaptureContextValue.forceRerender first (Some false) initial).2 in
  let s2 := (updateKey "first" (VStr "A") s1).2 in
  rerenders s1 = 1 ∧
  CaptureContextValue.forceRerender first (Some false) s1
  = (Normal VUndefined, s1) ∧
  staleState s2 = true ∧
  CaptureContextValue.forceRerender first (Some true) s2
  = (Normal VUndefined, s2) ∧
  CaptureContextValue.forceRerender first (Some false) s2
  = (Normal VUndefined, s2).
Proof. repeat split. Qed.

(** C8: [batchRemoveKeys] on a key list and on any permutation of it
    leave the same store and return the same mapping, which is the one the
    store then holds. *)
Theorem batchRemoveKeys_permutation (keyList keyList' : list string)
    (s : Provider) :
  keyList ≡ₚ keyList' →
  batchRemoveKeys keyList s = batchRemoveKeys keyList' s ∧
  ∃ s', batchRemoveKeys keyList s = (Normal (VObject (values s')), s').
Proof.
  intros Hp. rewrite !batchRemoveKeys_run. split; [|eexists; reflexivity].
  assert (E : foldl (λ s key, removed key s) s keyList
              = foldl (λ s key, removed key s) s keyList').
  { pose proof (foldl_removed_frame keyList s) as (Hr & Hn & Hq).
    pose proof (foldl_removed_frame keyList' s) as (Hr' & Hn' & Hq').
    pose proof (foldl_removed_stale keyList s) as Hs.
    pose proof (foldl_removed_stale keyList' s) as Hs'.
    assert (Hv : values (foldl (λ s key, removed key s) s keyList)
                 = values (foldl (λ s key, removed key s) s keyList')).
    { apply map_eq. intros k. rewrite !foldl_removed_lookup.
      destruct (decide (k ∈ keyList)) as [Hin|Hin];
        rewrite Hp in Hin; [by rewrite decide_True|by rewrite decide_False]. }
    rewrite (existsb_Permutation _ _ _ Hp) in Hs.
    destruct (foldl _ s keyList), (foldl _ s keyList').
    simpl in *. congruence. }
  by rewrite E.
Qed.

(** C10: [batchUpdateKeys] with an empty mapping leaves the captured
    values as they were and yet marks the store stale, so the next
    [forceRerender(true)] re-renders. *)
Theorem batchUpdateKeys_empty_marks_stale (s : Provider) :
  ∃ s',
    batchUpdateKeys ∅ s = (Normal (VObject (values s)), s') ∧
    values s' = values s ∧
    staleState s' = true ∧
    CaptureContextValue.forceRerender (current s') (Some true) s' =
      (Normal VUndefined, rerendered s') ∧
    rerenders (rerendered s') = S (rerenders s).
Proof.
  eexists. rewrite batchUpdateKeys_ordinary by done.
  rewrite (left_id_L ∅ (∪)). split; [reflexivity|].
  split; [reflexivity|]. split; [reflexivity|].
  cbn [current useCapturedProviderValue CaptureContextValue.forceRerender].
  rewrite forceRerender_current. done.
Qed.

End RefStoreProperties.

Section RefStoreStaleFlag.
Import RefStore.

Ltac bundle_call :=
  cbn [invoke current useCapturedProviderValue
       CaptureContextValue.updateKey CaptureContextValue.batchUpdateKeys
       CaptureContextValue.removeKey CaptureContextValue.batchRemoveKeys
       CaptureContextValue.getValues CaptureContextValue.forceRerender].

(** No call of the bundle resets [staleState]: once set it stays set,
    through whichever render's closures the calls are made. *)
Lemma staleState_sticky r c s :
  staleState s = true →
  staleState (invoke (useCapturedProviderValue r) c s).2 = true.
Proof.
  intros Hs. destruct c as [k v|m|k|l| |smart]; bundle_call.
  - by rewrite updateKey_run.
  - by destruct (batchUpdateKeys_frame m s) as (c & s' & -> & Hst & _).
  - rewrite removeKey_run. by destruct (HasProperty _ _).
  - rewrite batchRemoveKeys_run. cbn [snd].
    by rewrite foldl_removed_stale, Hs.
  - done.
  - rewrite forceRerender_run.
    destruct (default_param true smart && negb (staleState s)); [done|].
    unfold setRender. by destruct (bool_decide _).
Qed.

Lemma staleState_sticky_run cs s :
  staleState s = true → staleState (run cs s) = true.
Proof.
  revert s. induction cs as [|c cs IH]; intros s Hs; [done|].
  cbn [run]. apply IH. by apply staleState_sticky.
Qed.

(** On a stale store every [forceRerender], smart or not, re-renders and
    leaves the store stale, so the next smart one re-renders again. *)
Lemma forceRerender_keeps_stale smart s :
  staleState s = true →
  (forceRerender (render s) smart s).2 = rerendered s ∧
  forceRerender (render (rerendered s)) (Some true) (rerendered s) =
    (Normal VUndefined, rerendered (rerendered s)).
Proof.
  intros Hs. rewrite !forceRerender_current. cbn [snd staleState rerendered].
  rewrite Hs, !andb_false_r. done.
Qed.

(** C1: evaluation at the call series [updateKey("first", "A")],
    [forceRerender(true)], [forceRerender(true)] on a fresh store.  The
    first [forceRerender] re-renders; [staleState] is still set after it,
    and the second one, with no mutation in between, re-renders again. *)
Theorem stale_flag_survives_rerender :
  let s1 := run [UpdateKey "first" (VStr "A")] initial in
  let s2 := run [ForceRerender (Some true)] s1 in
  let s3 := run [ForceRerender (Some true)] s2 in
  staleState s1 = true ∧ rerenders s1 = 0 ∧
  staleState s2 = true ∧ rerenders s2 = 1 ∧
  s3 = rerendered s2 ∧ rerenders s3 = 2.
Proof. repeat split. Qed.

(** C5: evaluation outside any provider.  Each call on the default
    bundle completes and leaves the store it is given as it is, but
    [useCapturedValues()] yields [undefined], where the default bundles of
    the two earlier implementations hold an empty object. *)
Theorem default_getValues_undefined (s : Provider) :
  useCapturedValues None s = (Normal VUndefined, s) ∧
  (∀ c, invoke (useCaptureContextValue None) c s = (Normal VUndefined, s)) ∧
  StateStore.useCapturedValues None = plain ∅ ∧
  FormStore.useCapturedValues None = plain ∅.
Proof.
  split; [reflexivity|]. split; [|split; reflexivity].
  intros []; reflexivity.
Qed.

End RefStoreStaleFlag.

(** ** The store kept in a state cell *)

(** The updater of [batchUpdateKeys] throws on every plain object. *)
Lemma StateStore_batchUpdateKeys_throws (batchValues : gmap string value)
    (s : object) :
  StateStore.batchUpdateKeys batchValues s = (Throw TypeError, s).
Proof. reflexivity. Qed.

Lemma StateStore_updateKey_run key v (s : object) :
  StateStore.updateKey key v s
  = (Normal VUndefined, PutValue (plain (own s)) key v).
Proof. reflexivity. Qed.

Lemma FormStore_updateKey_run key v (s : object) :
  FormStore.updateKey key v s
  = (Normal VUndefined, PutValue (plain (own s)) key v).
Proof. reflexivity. Qed.

(** C6: evaluation at [batchUpdateKeys({first: "A"})].  In the
    implementation that keeps the store in a state cell the updater throws a
    TypeError and the store stays empty; the same call on the store of
    src/lib/index.js completes and stores the value. *)
Theorem batchUpdateKeys_for_of_throws :
  StateStore.batchUpdateKeys {["first" := VStr "A"]} StateStore.initial
  = (Throw TypeError, StateStore.initial) ∧
  ∃ obj s',
    RefStore.batchUpdateKeys {["first" := VStr "A"]} RefStore.initial
      = (Normal (VObject obj), s') ∧
    RefStore.values s' = obj ∧
    obj !! "first" = Some (VStr "A").
Proof.
  split; [reflexivity|]. eexists _, _.
  rewrite batchUpdateKeys_ordinary by done.
  split; [reflexivity|]. split; [reflexivity|].
  apply lookup_union_Some_l, lookup_singleton_eq.
Qed.

(** ** The per-field hook and unmount *)
Section FieldLifetime.

(** The effect of the hook of src/lib/index.js completes and hands React
    no destructor, inside a provider and outside. *)
Lemma RefStore_effect_run (r : option bool) name v (s : RefStore.Provider) :
  ∃ s', RefStore.effect (RefStore.useCapturedProviderValue <$> r) name v s
        = (Normal None, s').
Proof. destruct r; by eexists. Qed.

Lemma RefStore_setCapturedState_run (r : option bool) f v s :
  RefStore.destroy f = None →
  ∃ f' s',
    RefStore.setCapturedState (RefStore.useCapturedProviderValue <$> r) f v s
      = (Normal f', s') ∧
    RefStore.destroy f' = None.
Proof.
  intros Hd. unfold RefStore.setCapturedState.
  destruct (Object_is v (RefStore.capturedState f)); [by eexists _, _|].
  rewrite Hd. unfold commitUpdate, commitUnmount, mbind, M_bind.
  cbn [mret M_ret].
  destruct (RefStore_effect_run r (RefStore.name f) v s) as [s' ->].
  by eexists _, _.
Qed.

Lemma RefStore_changes_run (r : option bool) vs f s :
  RefStore.destroy f = None →
  ∃ f' s',
    RefStore.changes (RefStore.useCapturedProviderValue <$> r) f vs s
      = (Normal f', s') ∧
    RefStore.destroy f' = None.
Proof.
  revert f s. induction vs as [|v vs IH]; intros f s Hd.
  - by eexists _, _.
  - cbn [RefStore.changes]. unfold mbind, M_bind.
    destruct (RefStore_setCapturedState_run r f v s Hd)
      as (f1 & s1 & -> & Hd1).
    by apply IH.
Qed.

Lemma RefStore_lifetime_run (r : option bool) name d vs s :
  ∃ f s',
    RefStore.lifetime (RefStore.useCapturedProviderValue <$> r) name d vs s
      = (Normal f, s') ∧
    RefStore.destroy f = None.
Proof.
  unfold RefStore.lifetime, RefStore.mount, commitMount, mbind, M_bind.
  destruct (RefStore_effect_run r name (default_param (VStr "") d) s)
    as [s1 ->].
  cbn [mret M_ret]. by apply RefStore_changes_run.
Qed.

Lemma StateStore_lifetime_run (c : option object) name d vs s :
  ∃ f s',
    StateStore.lifetime (StateStore.useCapturedProviderValue <$> c) name d vs s
      = (Normal f, s') ∧
    StateStore.destroy f = None.
Proof.
  unfold StateStore.lifetime, StateStore.mount, commitMount.
  unfold mbind at 1, M_bind at 1.
  assert (He : ∃ s1, StateStore.effect
              (StateStore.useCapturedProviderValue <$> c) name
              (default_param (VStr "") d) s = (Normal None, s1)).
  { destruct c; by eexists. }
  destruct He as [s1 He].
  unfold mbind at 1, M_bind at 1. rewrite He. cbn [mret M_ret].
  unfold StateStore.changes, mbind, M_bind.
  edestruct (forEach_completes
    (StateStore.useCapturedState (StateStore.useCapturedProviderValue <$> c)
       {| StateStore.name := name;
          StateStore.defaultValue := default_param (VStr "") d;
          StateStore.destroy := None |}).2 vs) as [s2 ->].
  { intros x s0. destruct c; by eexists _, _. }
  by eexists _, _.
Qed.

Lemma FormStore_lifetime_run (c : option object) name d vs s :
  ∃ f s',
    FormStore.lifetime (FormStore.useCapturedProviderValue <$> c) name d vs s
      = (Normal f, s') ∧
    FormStore.destroy f = None.
Proof.
  unfold FormStore.lifetime, FormStore.mount, commitMount.
  unfold mbind at 1, M_bind at 1.
  assert (He : ∃ s1, FormStore.effect
              (FormStore.useCapturedProviderValue <$> c) name
              (default_param (VStr "") d) s = (Normal None, s1)).
  { destruct c; by eexists. }
  destruct He as [s1 He].
  unfold mbind at 1, M_bind at 1. rewrite He. cbn [mret M_ret].
  unfold FormStore.changes, mbind, M_bind.
  edestruct (forEach_completes
    (FormStore.useCapturedState (FormStore.useCapturedProviderValue <$> c)
       {| FormStore.name := name;
          FormStore.defaultValue := default_param (VStr "") d;
          FormStore.destroy := None |}).2 vs) as [s2 ->].
  { intros x s0. destruct c; by eexists _, _. }
  by eexists _, _.
Qed.

(** C9: in each of the three implementations a field hook, mounted inside
    a provider or outside and taken through any series of changes of its
    value, holds no destructor, and unmounting it leaves the whole store,
    its own key and value included, as it is. *)
Theorem unmount_leaves_store (name : string) (defaultValue : option value)
    (vs : list value) :
  (∀ (r : option bool) (s : RefStore.Provider), ∃ f s',
     RefStore.lifetime (RefStore.useCapturedProviderValue <$> r)
       name defaultValue vs s = (Normal f, s') ∧
     RefStore.destroy f = None ∧
     RefStore.unmount f s' = (Normal VUndefined, s')) ∧
  (∀ (c : option object) (s : object), ∃ f s',
     StateStore.lifetime (StateStore.useCapturedProviderValue <$> c)
       name defaultValue vs s = (Normal f, s') ∧
     StateStore.destroy f = None ∧
     StateStore.unmount f s' = (Normal VUndefined, s')) ∧
  (∀ (c : option object) (s : object), ∃ f s',
     FormStore.lifetime (FormStore.useCapturedProviderValue <$> c)
       name defaultValue vs s = (Normal f, s') ∧
     FormStore.destroy f = None ∧
     FormStore.unmount f s' = (Normal VUndefined, s')).
Proof.
  split; [|split].
  - intros r s.
    destruct (RefStore_lifetime_run r name defaultValue vs s)
      as (f & s' & E & Hd).
    exists f, s'. split; [done|]. split; [done|].
    unfold RefStore.unmount. by rewrite Hd.
  - intros c s.
    destruct (StateStore_lifetime_run c name defaultValue vs s)
      as (f & s' & E & Hd).
    exists f, s'. split; [done|]. split; [done|].
    unfold StateStore.unmount. by rewrite Hd.
  - intros c s.
    destruct (FormStore_lifetime_run c name defaultValue vs s)
      as (f & s' & E & Hd).
    exists f, s'. split; [done|]. split; [done|].
    unfold FormStore.unmount. by rewrite Hd.
Qed.

End FieldLifetime.

(** ** How the calls of src/lib/index.js compose *)
Section RefStoreAlgebra.
Import RefStore.

Lemma updateKey_twice k1 k2 v1 v2 s :
  (updateKey k1 v1 ;; updateKey k2 v2) s =
    (Normal VUndefined,
     {| render := render s;
        values := own (PutValue (PutValue (current_values s) k1 v1) k2 v2);
        values_prototype :=
          proto (PutValue (PutValue (current_values s) k1 v1) k2 v2);
        staleState := true; rerenders := rerenders s |}).
Proof.
  unfold mbind, M_bind. rewrite !updateKey_run. unfold current_values.
  cbn [render values values_prototype rerenders].
  by destruct (PutValue _ k1 v1).
Qed.

(** [updateKey] touches one key: every other key, the [render] cell and the
    count of re-renders are as before. *)
Theorem updateKey_frame (key key' : string) (v : value) (s : Provider) :
  key' ≠ key →
  values (updateKey key v s).2 !! key' = values s !! key' ∧
  render (updateKey key v s).2 = render s ∧
  rerenders (updateKey key v s).2 = rerenders s.
Proof.
  intros Hne. rewrite updateKey_run. cbn [snd values render rerenders].
  by rewrite PutValue_lookup_ne.
Qed.

(** Two writes of one key other than [__proto__]: the later one wins, and
    the store is the one a single write of the later value leaves. *)
Theorem updateKey_last_write_wins (key : string) (v1 v2 : value) (s : Provider) :
  key ≠ "__proto__" →
  (updateKey key v1 ;; updateKey key v2) s = updateKey key v2 s.
Proof.
  intros Hk. unfold mbind, M_bind. rewrite !updateKey_ordinary by done.
  cbn [render values values_prototype rerenders]. by rewrite insert_insert_eq.
Qed.

(** Writes of different keys commute. *)
Theorem updateKey_commute (k1 k2 : string) (v1 v2 : value) (s : Provider) :
  k1 ≠ k2 →
  (updateKey k1 v1 ;; updateKey k2 v2) s
  = (updateKey k2 v2 ;; updateKey k1 v1) s.
Proof.
  intros Hne. rewrite !updateKey_twice. by rewrite PutValue_commute.
Qed.

(** Writing a key the store has no entry for and removing it again brings
    the captured values back; the store is left stale and is not
    re-rendered. *)
Theorem removeKey_undoes_updateKey (key : string) (v : value) (s : Provider) :
  values s !! key = None →
  ∃ s',
    (updateKey key v ;; removeKey key) s = (Normal VUndefined, s') ∧
    values s' = values s ∧ staleState s' = true ∧
    render s' = render s ∧ rerenders s' = rerenders s.
Proof.
  intros Hk. eexists. unfold mbind, M_bind.
  rewrite updateKey_run, removeKey_removed. split; [reflexivity|].
  cbn [removed values staleState render rerenders].
  split; [|done]. apply map_eq. intros k.
  destruct (decide (k = key)) as [->|Hne].
  - by rewrite lookup_delete_eq.
  - rewrite lookup_delete_ne by done. by rewrite PutValue_lookup_ne.
Qed.

(** Removing a key twice is removing it once. *)
Theorem removeKey_idempotent (key : string) (s : Provider) :
  (removeKey key ;; removeKey key) s = removeKey key s.
Proof.
  unfold mbind, M_bind. rewrite !removeKey_removed. unfold removed.
  cbn [values values_prototype render rerenders staleState].
  rewrite delete_delete_eq. do 2 f_equal.
  rewrite <- orb_assoc. f_equal.
  unfold HasProperty, current_values.
  cbn [own proto values values_prototype].
  rewrite lookup_delete_eq.
  rewrite (bool_decide_eq_false_2 (is_Some None)) by (by intros [??]).
  cbn [orb]. by destruct (bool_decide _), (inherits _ _).
Qed.

(** What [batchRemoveKeys] leaves: the listed keys have no entry and every
    other key is as before; the store is stale exactly when it was already
    or [key in values.current] held for one of the listed keys; nothing is
    re-rendered and the prototype is as before.  With an empty list nothing
    changes at all. *)
Theorem batchRemoveKeys_leaves (keyList : list string) (s : Provider) :
  ∃ s',
    batchRemoveKeys keyList s = (Normal (VObject (values s')), s') ∧
    (∀ k, values s' !! k = if decide (k ∈ keyList) then None
                           else values s !! k) ∧
    staleState s' =
      staleState s || existsb (HasProperty (current_values s)) keyList ∧
    render s' = render s ∧ rerenders s' = rerenders s ∧
    values_prototype s' = values_prototype s ∧
    (keyList = [] → s' = s).
Proof.
  eexists. rewrite batchRemoveKeys_run. split; [reflexivity|].
  split; [intros k; apply foldl_removed_lookup|].
  split; [apply foldl_removed_stale|].
  destruct (foldl_removed_frame keyList s) as (Hr & Hn & Hp).
  split; [done|]. split; [done|]. split; [done|]. by intros ->.
Qed.

(** Removing the keys of two lists in one call is removing the first list
    and then the second. *)
Theorem batchRemoveKeys_app (l1 l2 : list string) (s : Provider) :
  batchRemoveKeys (l1 ++ l2) s
  = (batchRemoveKeys l1 ;; batchRemoveKeys l2) s.
Proof.
  unfold mbind, M_bind. rewrite !batchRemoveKeys_run.
  by rewrite foldl_app.
Qed.

(** Two batch updates in a row, of mappings with neither [hasOwnProperty]
    nor [__proto__] among their keys, are one batch update with the second
    mapping laid over the first. *)
Theorem batchUpdateKeys_compose (m1 m2 : gmap string value) (s : Provider) :
  m1 !! "hasOwnProperty" = None → m1 !! "__proto__" = None →
  m2 !! "hasOwnProperty" = None → m2 !! "__proto__" = None →
  (batchUpdateKeys m1 ;; batchUpdateKeys m2) s = batchUpdateKeys (m2 ∪ m1) s.
Proof.
  intros H1 P1 H2 P2. unfold mbind, M_bind.
  rewrite !batchUpdateKeys_ordinary; try done;
    try (apply lookup_union_None; done).
  cbn [values values_prototype render rerenders]. by rewrite (assoc_L (∪)).
Qed.

(** A batch update of one pair, its key not being [hasOwnProperty], leaves
    the store that [updateKey] leaves. *)
Theorem batchUpdateKeys_singleton (key : string) (v : value) (s : Provider) :
  key ≠ "hasOwnProperty" →
  (batchUpdateKeys {[key := v]} s).2 = (updateKey key v s).2.
Proof.
  intros Hk. rewrite batchUpdateKeys_run by (by rewrite lookup_singleton_ne).
  unfold for_in_keys. rewrite map_to_list_singleton.
  cbn [snd fmap list_fmap fst foldl]. unfold merged.
  rewrite lookup_singleton_eq. rewrite bool_decide_eq_true_2 by eauto.
  unfold own_value. rewrite lookup_singleton_eq. cbn [default from_option].
  by rewrite !updateKey_run.
Qed.

(** A batch update with keys the store has no entry for, followed by the
    removal of those keys, brings the captured values back. *)
Theorem batchRemoveKeys_undoes_batchUpdateKeys
    (batchValues : gmap string value) (s : Provider) :
  (∀ k, is_Some (batchValues !! k) → values s !! k = None) →
  values ((batchUpdateKeys batchValues ;;
           batchRemoveKeys (for_in_keys batchValues)) s).2
  = values s.
Proof.
  intros Hd. unfold mbind, M_bind.
  destruct (batchValues !! "hasOwnProperty") as [w|] eqn:Hw.
  - by rewrite batchUpdateKeys_shadowed by (rewrite Hw; eauto).
  - rewrite batchUpdateKeys_run by done. rewrite batchRemoveKeys_run.
    cbn [snd]. apply map_eq. intros k. rewrite foldl_removed_lookup.
    destruct (decide (k ∈ for_in_keys batchValues)) as [Hin|Hin].
    + apply elem_of_for_in_keys in Hin. symmetry. by apply Hd.
    + by rewrite foldl_merged_lookup_notin.
Qed.

(** A batch update whose argument has an own property [hasOwnProperty]
    throws a TypeError at the first key: no entry is written, the prototype
    is as before, nothing is re-rendered, and the store is left stale. *)
Theorem batchUpdateKeys_shadowed_throws (batchValues : gmap string value)
    (s : Provider) :
  is_Some (batchValues !! "hasOwnProperty") →
  ∃ s',
    batchUpdateKeys batchValues s = (Throw TypeError, s') ∧
    values s' = values s ∧ values_prototype s' = values_prototype s ∧
    staleState s' = true ∧
    render s' = render s ∧ rerenders s' = rerenders s.
Proof.
  intros Hs. eexists. split; [by apply batchUpdateKeys_shadowed|]. done.
Qed.

End RefStoreAlgebra.

(** ** Re-renders and the stale flag *)
Section RefStoreRerenders.
Import RefStore.

Ltac bundle_call :=
  cbn [invoke current useCapturedProviderValue
       CaptureContextValue.updateKey CaptureContextValue.batchUpdateKeys
       CaptureContextValue.removeKey CaptureContextValue.batchRemoveKeys
       CaptureContextValue.getValues CaptureContextValue.forceRerender].

Lemma invoke_frame (r : bool) (c : call) (s : Provider) :
  forces c = false →
  render (invoke (useCapturedProviderValue r) c s).2 = render s ∧
  rerenders (invoke (useCapturedProviderValue r) c s).2 = rerenders s.
Proof.
  intros Hc. destruct c as [k v|m|k|l| |smart]; try discriminate; bundle_call.
  - by rewrite updateKey_run.
  - destruct (batchUpdateKeys_frame m s) as (c & s' & E & _ & Hr & Hn & _).
    by rewrite E.
  - rewrite removeKey_run. by destruct (HasProperty _ _).
  - rewrite batchRemoveKeys_run. cbn [snd].
    by destruct (foldl_removed_frame l s) as (-> & -> & _).
  - done.
Qed.

(** Only [forceRerender] re-renders: every other call of the bundle leaves
    the [render] cell and the count of re-renders as they are. *)
Theorem mutations_never_rerender (r : bool) (c : call) (s : Provider) :
  forces c = false →
  render (invoke (useCapturedProviderValue r) c s).2 = render s ∧
  rerenders (invoke (useCapturedProviderValue r) c s).2 = rerenders s.
Proof. apply invoke_frame. Qed.

Lemma forceRerender_frame (r : bool) (smart : option bool) (s : Provider) :
  ∃ s',
    forceRerender r smart s = (Normal VUndefined, s') ∧
    values s' = values s ∧ staleState s' = staleState s ∧
    (s' = s ∨ s' = rerendered s).
Proof.
  rewrite forceRerender_run.
  destruct (default_param true smart && negb (staleState s)).
  { exists s. split; [done|]. split; [done|]. split; [done|]. by left. }
  unfold setRender. destruct (bool_decide (negb r = render s)) eqn:E.
  - exists s. split; [done|]. split; [done|]. split; [done|]. by left.
  - eexists. split; [reflexivity|]. cbn [snd values staleState].
    split; [done|]. split; [done|]. right. unfold rerendered.
    apply bool_decide_eq_false in E.
    replace (negb r) with (negb (render s)); [done|].
    destruct r, (render s); simpl in *; congruence.
Qed.

(** [forceRerender], through the closure of any render and whatever
    [smart] is, leaves the captured values and the stale flag as they are,
    and re-renders at most once. *)
Theorem forceRerender_keeps_values (r : bool) (smart : option bool)
    (s : Provider) :
  ∃ s',
    forceRerender r smart s = (Normal VUndefined, s') ∧
    values s' = values s ∧ staleState s' = staleState s ∧
    (s' = s ∨ s' = rerendered s).
Proof. apply forceRerender_frame. Qed.

(** Two [forceRerender] calls through the bundle of one render re-render
    at most once: the second call hands [setRender] the state that the
    first one has set. *)
Theorem forceRerender_twice (smart : option bool) (s : Provider) :
  let forceRerender := CaptureContextValue.forceRerender (current s) in
  (forceRerender smart ;; forceRerender smart) s = forceRerender smart s.
Proof.
  bundle_call. cbv zeta. unfold mbind, M_bind.
  rewrite (forceRerender_current smart s).
  destruct (default_param true smart && negb (staleState s)) eqn:E.
  - by rewrite forceRerender_current, E.
  - rewrite forceRerender_run. cbn [staleState rerendered]. rewrite E.
    unfold setRender. cbn [render]. by rewrite bool_decide_eq_true_2.
Qed.

(** No series of calls resets the stale flag. *)
Theorem staleState_never_reset (cs : list call) (s : Provider) :
  staleState s = true → staleState (run cs s) = true.
Proof. apply staleState_sticky_run. Qed.

Lemma call_changes_or_stale (r : bool) (c : call) (s : Provider) :
  values (invoke (useCapturedProviderValue r) c s).2 = values s ∨
  staleState (invoke (useCapturedProviderValue r) c s).2 = true.
Proof.
  destruct c as [k v|m|k|l| |smart]; bundle_call.
  - right. by rewrite updateKey_run.
  - right. destruct (batchUpdateKeys_frame m s) as (c & s' & E & Hst & _).
    by rewrite E.
  - rewrite removeKey_run. destruct (HasProperty _ _); [by right|by left].
  - rewrite batchRemoveKeys_run. cbn [snd].
    destruct (existsb (HasProperty (current_values s)) l) eqn:E.
    + right. rewrite foldl_removed_stale, E. apply orb_true_r.
    + left. apply map_eq. intros k. rewrite foldl_removed_lookup.
      destruct (decide (k ∈ l)) as [Hin|Hin]; [|done].
      symmetry.
      apply (HasProperty_false (current_values s)).
      by apply (existsb_false_elem _ l).
  - by left.
  - left. by destruct (forceRerender_frame r smart s)
      as (s' & -> & Hv & _).
Qed.

(** No change goes unnoticed: when a series of calls leaves the store not
    stale, the captured values are what they were before the series. *)
Theorem clean_store_unchanged (cs : list call) (s : Provider) :
  staleState (run cs s) = false → values (run cs s) = values s.
Proof.
  revert s. induction cs as [|c cs IH]; intros s Hc; [done|].
  cbn [run] in *.
  destruct (call_changes_or_stale (render s) c s) as [Hv|Hst].
  - fold (current s) in Hv. rewrite <- Hv. by apply IH.
  - fold (current s) in Hst.
    rewrite (staleState_sticky_run cs _ Hst) in Hc. discriminate.
Qed.

(** On a store that is not stale, reading and smart refreshing change
    nothing: no re-render happens before the first mutation. *)
Theorem quiet_calls_do_nothing (cs : list call) (s : Provider) :
  staleState s = false → forallb quiet cs = true → run cs s = s.
Proof.
  intros Hs. induction cs as [|c cs IH]; [done|].
  cbn [forallb run]. intros [Hq Hcs]%andb_true_iff.
  replace (invoke (current s) c s).2 with s; [by apply IH|].
  destruct c as [| | | | |[[]|]]; try discriminate; bundle_call; [done|..];
    by rewrite forceRerender_current, Hs.
Qed.

End RefStoreRerenders.

(** ** The per-field hook of src/lib/index.js at work *)
Section RefStoreField.
Import RefStore.

Lemma mount_run (r : bool) (name : string) (d : option value) (s : Provider) :
  mount (Some (useCapturedProviderValue r)) name d s =
    (Normal {| name := name; capturedState := default_param (VStr "") d;
               destroy := None |},
     (updateKey name (default_param (VStr "") d) s).2).
Proof. reflexivity. Qed.

Lemma changes_in_provider (r : bool) (vs : list value) (f : Field)
    (s : Provider) :
  name f ≠ "__proto__" →
  destroy f = None →
  values s !! name f = Some (capturedState f) →
  staleState s = true →
  ∃ f',
    changes (Some (useCapturedProviderValue r)) f vs s =
      (Normal f',
       {| render := render s;
          values := <[name f := capturedState f']> (values s);
          values_prototype := values_prototype s;
          staleState := true; rerenders := rerenders s |}) ∧
    name f' = name f ∧
    capturedState f' = default (capturedState f) (last vs) ∧
    destroy f' = None.
Proof.
  intros Hp. revert f s Hp. induction vs as [|v vs IH]; intros f s Hp Hd Hv Hs.
  - exists f. cbn [changes mret M_ret]. rewrite insert_id by done.
    split; [|done]. destruct s; simpl in *; by subst.
  - cbn [changes]. unfold mbind, M_bind, setCapturedState.
    destruct (Object_is v (capturedState f)) eqn:E.
    + apply Object_is_eq in E as ->. cbn [mret M_ret].
      destruct (IH f s Hp Hd Hv Hs) as (f' & -> & Hn & Hc & Hd').
      exists f'. by rewrite default_last_cons.
    + rewrite Hd.
      unfold commitUpdate, commitUnmount, effect, mbind, M_bind.
      cbn [mret M_ret useCaptureContextValue default useCapturedProviderValue
           CaptureContextValue.updateKey].
      rewrite updateKey_ordinary by done. unfold mret, M_ret. cbv beta iota.
      edestruct (IH {| name := name f; capturedState := v; destroy := None |}
                   {| render := render s; values := <[name f := v]> (values s);
                      values_prototype := values_prototype s;
                      staleState := true; rerenders := rerenders s |})
        as (f' & -> & Hn & Hc & Hd'); [done|done|..|].
      * cbn [values name capturedState]. apply lookup_insert_eq.
      * done.
      * exists f'.
        cbn [name capturedState render values values_prototype rerenders] in *.
        rewrite insert_insert_eq, default_last_cons. done.
Qed.

(** Mounting a field whose name is not [__proto__] inside a provider
    registers it: the store gets the default value (the empty string when
    none is given or [undefined] is) under the field's name, whatever it
    held there before, and is left stale; nothing is re-rendered, and
    [useCapturedValues()] yields the mapping with the new entry. *)
Theorem mount_registers (r : bool) (name : string) (d : option value)
    (s : Provider) :
  name ≠ "__proto__" →
  let provider := Some (useCapturedProviderValue r) in
  let v := default_param (VStr "") d in
  ∃ f s',
    mount provider name d s = (Normal f, s') ∧
    capturedState f = v ∧
    values s' = <[name := v]> (values s) ∧
    staleState s' = true ∧
    render s' = render s ∧ rerenders s' = rerenders s ∧
    useCapturedValues provider s' = (Normal (VObject (values s')), s').
Proof.
  intros Hp. cbv zeta. eexists _, _. rewrite mount_run.
  rewrite updateKey_ordinary by done. repeat split.
Qed.

(** A field whose name is not [__proto__], inside a provider, keeps the
    store in step with its own state: after its mount and any series of
    [setCapturedState] calls the field holds the last value given (the
    default when there was none) and the store holds that value under the
    field's name, every other key being as before; the provider has not
    been re-rendered. *)
Theorem field_keeps_store_in_step (r : bool) (name : string)
    (d : option value) (vs : list value) (s : Provider) :
  name ≠ "__proto__" →
  let latest := default (default_param (VStr "") d) (last vs) in
  ∃ f s',
    lifetime (Some (useCapturedProviderValue r)) name d vs s = (Normal f, s') ∧
    capturedState f = latest ∧
    values s' = <[name := latest]> (values s) ∧
    staleState s' = true ∧
    render s' = render s ∧ rerenders s' = rerenders s.
Proof.
  intros Hp. cbv zeta. unfold lifetime, mbind at 1, M_bind at 1.
  rewrite mount_run. rewrite updateKey_ordinary by done. cbn [snd].
  edestruct (changes_in_provider r vs
               {| name := name; capturedState := default_param (VStr "") d;
                  destroy := None |}
               {| render := render s;
                  values := <[name := default_param (VStr "") d]> (values s);
                  values_prototype := values_prototype s;
                  staleState := true; rerenders := rerenders s |})
    as (f' & -> & Hn & Hc & Hd); [done|done|apply lookup_insert_eq|done|].
  cbn [RefStore.name capturedState render values rerenders] in *.
  eexists _, _. split; [reflexivity|]. cbn [values staleState render rerenders].
  rewrite insert_insert_eq, Hc. done.
Qed.

Lemma changes_outside (vs : list value) (f : Field) (s : Provider) :
  destroy f = None →
  ∃ f',
    changes None f vs s = (Normal f', s) ∧
    capturedState f' = default (capturedState f) (last vs) ∧
    destroy f' = None.
Proof.
  revert f. induction vs as [|v vs IH]; intros f Hd; [by exists f|].
  cbn [changes]. unfold mbind, M_bind, setCapturedState.
  destruct (Object_is v (capturedState f)) eqn:E.
  - apply Object_is_eq in E as ->. cbn [mret M_ret].
    destruct (IH f Hd) as (f' & -> & Hc & Hd').
    exists f'. by rewrite default_last_cons.
  - rewrite Hd.
    unfold commitUpdate, commitUnmount, effect, mbind, M_bind.
    cbn [useCaptureContextValue default captureDefaultValue
         CaptureContextValue.updateKey].
    unfold mret, M_ret. cbv beta iota.
    destruct (IH {| name := name f; capturedState := v; destroy := None |}
                eq_refl) as (f' & -> & Hc & Hd').
    exists f'. by rewrite default_last_cons.
Qed.

(** Outside any provider the field still works as local state, and nothing
    reaches a store: whatever store is looked at is as before, stale flag
    included. *)
Theorem field_outside_provider (name : string) (d : option value)
    (vs : list value) (s : Provider) :
  ∃ f,
    lifetime None name d vs s = (Normal f, s) ∧
    capturedState f = default (default_param (VStr "") d) (last vs).
Proof.
  unfold lifetime, mbind, M_bind.
  change (mount None name d s) with
    (Normal {| name := name; capturedState := default_param (VStr "") d;
               destroy := None |}, s).
  destruct (changes_outside vs
              {| name := name; capturedState := default_param (VStr "") d;
                 destroy := None |} s eq_refl) as (f' & -> & Hc & _).
  by exists f'.
Qed.

End RefStoreField.

(** ** The two earlier implementations at work *)
Section StateCell.

Lemma foldl_Delete_own keyList (o : object) :
  own (foldl (λ newValue key, Delete newValue key) o keyList)
  = foldl (λ m key, delete key m) (own o) keyList.
Proof.
  revert o. induction keyList as [|k l IH]; intros o; [done|].
  cbn [foldl]. by rewrite IH.
Qed.

(** On [removeKey] and [batchRemoveKeys], and on [updateKey] for every key
    but [__proto__] and for every key while the captured values object
    still has the prototype it was made with, the store of src/lib/index.js
    and the store kept in a state cell agree: from the same entries both
    implementations reach the same entries. *)
Theorem implementations_agree (s : RefStore.Provider) :
  (∀ key v,
     key ≠ "__proto__" ∨ RefStore.values_prototype s = ObjectPrototype →
     RefStore.values (RefStore.updateKey key v s).2
     = own (StateStore.updateKey key v (RefStore.current_values s)).2) ∧
  (∀ key,
     RefStore.values (RefStore.removeKey key s).2
     = own (StateStore.removeKey key (RefStore.current_values s)).2) ∧
  (∀ keyList,
     RefStore.values (RefStore.batchRemoveKeys keyList s).2
     = own (StateStore.batchRemoveKeys keyList (RefStore.current_values s)).2).
Proof.
  split; [|split].
  - intros key v Hk. rewrite updateKey_run, StateStore_updateKey_run.
    cbn [snd RefStore.values]. destruct Hk as [Hk|Hk].
    + by rewrite !PutValue_ordinary.
    + unfold RefStore.current_values, plain. cbn [own]. by rewrite Hk.
  - intros key. by rewrite removeKey_removed.
  - intros keyList. rewrite batchRemoveKeys_run. cbn [snd].
    rewrite foldl_removed_values.
    change (StateStore.batchRemoveKeys keyList (RefStore.current_values s)).2
      with (foldl (λ newValue key, Delete newValue key)
              (plain (own (RefStore.current_values s))) keyList).
    by rewrite foldl_Delete_own.
Qed.

Lemma StateStore_setter_run name (vs : list value) (x : value)
    (m : gmap string value) :
  name ≠ "__proto__" →
  forEach vs (λ val, StateStore.updateKey name val) (plain (<[name := x]> m))
  = (Normal VUndefined, plain (<[name := default x (last vs)]> m)).
Proof.
  intros Hp. revert x. induction vs as [|v vs IH]; intros x; [done|].
  cbn [forEach]. unfold mbind, M_bind.
  rewrite StateStore_updateKey_run, PutValue_ordinary by done.
  cbn [own proto plain]. rewrite insert_insert_eq.
  change {| own := <[name := v]> m; proto := ObjectPrototype |}
    with (plain (<[name := v]> m)).
  rewrite IH. by rewrite default_last_cons.
Qed.

Lemma FormStore_setter_run name (vs : list value) (x : value)
    (m : gmap string value) :
  name ≠ "__proto__" →
  forEach vs (λ val, FormStore.updateKey name val) (plain (<[name := x]> m))
  = (Normal VUndefined, plain (<[name := default x (last vs)]> m)).
Proof.
  intros Hp. revert x. induction vs as [|v vs IH]; intros x; [done|].
  cbn [forEach]. unfold mbind, M_bind.
  rewrite FormStore_updateKey_run, PutValue_ordinary by done.
  cbn [own proto plain]. rewrite insert_insert_eq.
  change {| own := <[name := v]> m; proto := ObjectPrototype |}
    with (plain (<[name := v]> m)).
  rewrite IH. by rewrite default_last_cons.
Qed.

(** In both earlier implementations a field whose name is not [__proto__],
    inside a provider, has after its mount and any series of calls of its
    setter left the last value given (the default when there was none)
    under its name in the store, every other key being as before, and a
    render against that store shows that value. *)
Theorem field_writes_through (c : object) (name : string)
    (d : option value) (vs : list value) (s : object) :
  name ≠ "__proto__" →
  let latest := default (default_param (VStr "") d) (last vs) in
  let s' := plain (<[name := latest]> (own s)) in
  (∃ f,
     StateStore.lifetime (Some (StateStore.useCapturedProviderValue c))
       name d vs s = (Normal f, s') ∧
     (StateStore.useCapturedState
        (Some (StateStore.useCapturedProviderValue s')) f).1 = Data latest) ∧
  (∃ f,
     FormStore.lifetime (Some (FormStore.useCapturedProviderValue c))
       name d vs s = (Normal f, s') ∧
     (FormStore.useCapturedState
        (Some (FormStore.useCapturedProviderValue s')) f).1 = Data latest).
Proof.
  intros Hp. cbv zeta. split.
  - eexists. unfold StateStore.lifetime, StateStore.changes, mbind, M_bind.
    change (StateStore.mount _ name d s) with
      (Normal {| StateStore.name := name;
                 StateStore.defaultValue := default_param (VStr "") d;
                 StateStore.destroy := None |},
       PutValue (plain (own s)) name (default_param (VStr "") d)).
    rewrite PutValue_ordinary by done. cbn [own proto plain].
    change {| own := <[name := default_param (VStr "") d]> (own s);
              proto := ObjectPrototype |}
      with (plain (<[name := default_param (VStr "") d]> (own s))).
    cbn [StateStore.useCapturedState snd StateStore.name
         StateStore.useCaptureContextValue default
         StateStore.useCapturedProviderValue StateStore.Bundle.updateKey].
    rewrite StateStore_setter_run by done. split; [reflexivity|].
    cbn [fst StateStore.Bundle.values StateStore.name StateStore.defaultValue
         StateStore.useCapturedState StateStore.useCaptureContextValue default
         StateStore.useCapturedProviderValue].
    unfold id.
    cbn [StateStore.Bundle.values StateStore.useCapturedProviderValue].
    rewrite HasProperty_own
      by (cbn [own plain]; rewrite lookup_insert_eq; eauto).
    unfold Get. cbn [own plain]. by rewrite lookup_insert_eq.
  - eexists. unfold FormStore.lifetime, FormStore.changes, mbind, M_bind.
    change (FormStore.mount _ name d s) with
      (Normal {| FormStore.name := name;
                 FormStore.defaultValue := default_param (VStr "") d;
                 FormStore.destroy := None |},
       PutValue (plain (own s)) name (default_param (VStr "") d)).
    rewrite PutValue_ordinary by done. cbn [own proto plain].
    change {| own := <[name := default_param (VStr "") d]> (own s);
              proto := ObjectPrototype |}
      with (plain (<[name := default_param (VStr "") d]> (own s))).
    cbn [FormStore.useCapturedState snd FormStore.name
         FormStore.useContext default
         FormStore.useCapturedProviderValue FormStore.Bundle.updateKey].
    rewrite FormStore_setter_run by done. split; [reflexivity|].
    cbn [fst FormStore.Bundle.values FormStore.name FormStore.defaultValue
         FormStore.useCapturedState FormStore.useContext default
         FormStore.useCapturedProviderValue].
    unfold id.
    cbn [FormStore.Bundle.values FormStore.useCapturedProviderValue].
    rewrite HasProperty_own
      by (cbn [own plain]; rewrite lookup_insert_eq; eauto).
    unfold Get. cbn [own plain]. by rewrite lookup_insert_eq.
Qed.

(** In both earlier implementations a field outside any provider cannot be
    changed: the setter is inert and no store is touched.  Whatever the
    setter was called with, every render shows the default value, unless
    the field's name is that of a member of [Object.prototype], which the
    default bundle's empty object inherits and the render then shows. *)
Theorem field_stuck_outside_provider (name : string) (d : option value)
    (vs : list value) (s : object) :
  let shown :=
    if bool_decide (name ∈ ObjectPrototype_keys)
    then Get (plain ∅) name
    else Data (default_param (VStr "") d) in
  (∃ f,
     StateStore.lifetime None name d vs s = (Normal f, s) ∧
     (StateStore.useCapturedState None f).1 = shown) ∧
  (∃ f,
     FormStore.lifetime None name d vs s = (Normal f, s) ∧
     (FormStore.useCapturedState None f).1 = shown).
Proof.
  cbv zeta. split.
  - eexists. unfold StateStore.lifetime, StateStore.changes, mbind, M_bind.
    change (StateStore.mount None name d s) with
      (Normal {| StateStore.name := name;
                 StateStore.defaultValue := default_param (VStr "") d;
                 StateStore.destroy := None |}, s).
    cbn [StateStore.useCapturedState snd StateStore.useCaptureContextValue
         default StateStore.captureDefaultValue StateStore.Bundle.updateKey].
    rewrite forEach_inert. split; reflexivity.
  - eexists. unfold FormStore.lifetime, FormStore.changes, mbind, M_bind.
    change (FormStore.mount None name d s) with
      (Normal {| FormStore.name := name;
                 FormStore.defaultValue := default_param (VStr "") d;
                 FormStore.destroy := None |}, s).
    cbn [FormStore.useCapturedState snd FormStore.useContext
         default FormStore.FormCaptureContext FormStore.Bundle.updateKey].
    rewrite forEach_inert. split; reflexivity.
Qed.

End StateCell.

(** ** Instances *)


Lemma batchRemoveKeys_permutation_witness :
  ["first"; "third"] ≡ₚ ["third"; "first"] ∧
  (RefStore.batchRemoveKeys ["first"; "third"] sample
     = RefStore.batchRemoveKeys ["third"; "first"] sample ∧
   ∃ s', RefStore.batchRemoveKeys ["first"; "third"] sample
           = (Normal (VObject (RefStore.values s')), s')).
Proof.
  split; [apply perm_swap|].
  apply (batchRemoveKeys_permutation ["first"; "third"] ["third"; "first"] sample).
  apply perm_swap.
Defined.

Lemma updateKey_frame_witness :
  "first" ≠ "second" ∧
  (RefStore.values (RefStore.updateKey "second" (VStr "B") sample).2 !! "first"
     = RefStore.values sample !! "first" ∧
   RefStore.render (RefStore.updateKey "second" (VStr "B") sample).2
     = RefStore.render sample ∧
   RefStore.rerenders (RefStore.updateKey "second" (VStr "B") sample).2
     = RefStore.rerenders sample).
Proof.
  split; [discriminate|].
  apply (updateKey_frame "second" "first" (VStr "B") sample). discriminate.
Defined.

Lemma updateKey_last_write_wins_witness :
  "second" ≠ "__proto__" ∧
  (RefStore.updateKey "second" VNull ;; RefStore.updateKey "second" (VStr "B"))
    sample
  = RefStore.updateKey "second" (VStr "B") sample.
Proof.
  split; [discriminate|].
  apply (updateKey_last_write_wins "second" VNull (VStr "B") sample).
  discriminate.
Defined.

Lemma updateKey_commute_witness :
  "first" ≠ "second" ∧
  (RefStore.updateKey "first" VNull ;; RefStore.updateKey "second" (VStr "B"))
    sample
  = (RefStore.updateKey "second" (VStr "B") ;; RefStore.updateKey "first" VNull)
      sample.
Proof.
  split; [discriminate|].
  apply (updateKey_commute "first" "second" VNull (VStr "B") sample).
  discriminate.
Defined.

Lemma removeKey_undoes_updateKey_witness :
  RefStore.values sample !! "fourth" = None ∧
  ∃ s',
    (RefStore.updateKey "fourth" (VBool true) ;; RefStore.removeKey "fourth")
      sample = (Normal VUndefined, s') ∧
    RefStore.values s' = RefStore.values sample ∧
    RefStore.staleState s' = true ∧
    RefStore.render s' = RefStore.render sample ∧
    RefStore.rerenders s' = RefStore.rerenders sample.
Proof.
  split; [reflexivity|].
  apply (removeKey_undoes_updateKey "fourth" (VBool true) sample). reflexivity.
Defined.

Lemma batchUpdateKeys_compose_witness :
  ({[ "second" := VStr "B" ]} : gmap string value) !! "hasOwnProperty" = None ∧
  ({[ "second" := VStr "B" ]} : gmap string value) !! "__proto__" = None ∧
  ({[ "second" := VNull; "fourth" := VNum 4 ]} : gmap string value)
    !! "hasOwnProperty" = None ∧
  ({[ "second" := VNull; "fourth" := VNum 4 ]} : gmap string value)
    !! "__proto__" = None ∧
  (RefStore.batchUpdateKeys {[ "second" := VStr "B" ]} ;;
   RefStore.batchUpdateKeys {[ "second" := VNull; "fourth" := VNum 4 ]}) sample
  = RefStore.batchUpdateKeys
      ({[ "second" := VNull; "fourth" := VNum 4 ]} ∪ {[ "second" := VStr "B" ]})
      sample.
Proof.
  split; [reflexivity|]. split; [reflexivity|].
  split; [reflexivity|]. split; [reflexivity|].
  apply (batchUpdateKeys_compose {[ "second" := VStr "B" ]}
           {[ "second" := VNull; "fourth" := VNum 4 ]} sample); reflexivity.
Defined.

Lemma batchUpdateKeys_singleton_witness :
  "second" ≠ "hasOwnProperty" ∧
  (RefStore.batchUpdateKeys {[ "second" := VStr "B" ]} sample).2
  = (RefStore.updateKey "second" (VStr "B") sample).2.
Proof.
  split; [discriminate|].
  apply (batchUpdateKeys_singleton "second" (VStr "B") sample). discriminate.
Defined.

Lemma batchRemoveKeys_undoes_batchUpdateKeys_witness :
  (∀ k, is_Some (({["fourth" := VNull]} : gmap string value) !! k) →
        RefStore.values sample !! k = None) ∧
  RefStore.values
    ((RefStore.batchUpdateKeys {["fourth" := VNull]} ;;
      RefStore.batchRemoveKeys (for_in_keys {["fourth" := VNull]})) sample).2
  = RefStore.values sample.
Proof.
  assert (H : ∀ k, is_Some (({["fourth" := VNull]} : gmap string value) !! k) →
                   RefStore.values sample !! k = None).
  { intros k [v Hv]. apply lookup_singleton_Some in Hv as [<- _]. reflexivity. }
  split; [exact H|].
  apply (batchRemoveKeys_undoes_batchUpdateKeys {["fourth" := VNull]} sample H).
Defined.

Lemma mutations_never_rerender_witness :
  forces (RefStore.BatchRemoveKeys ["first"; "fourth"]) = false ∧
  (RefStore.render
     (RefStore.invoke (RefStore.useCapturedProviderValue false)
        (RefStore.BatchRemoveKeys ["first"; "fourth"]) sample).2
   = RefStore.render sample ∧
   RefStore.rerenders
     (RefStore.invoke (RefStore.useCapturedProviderValue false)
        (RefStore.BatchRemoveKeys ["first"; "fourth"]) sample).2
   = RefStore.rerenders sample).
Proof.
  split; [reflexivity|].
  apply (mutations_never_rerender false
           (RefStore.BatchRemoveKeys ["first"; "fourth"]) sample).
  reflexivity.
Defined.

Lemma staleState_never_reset_witness :
  RefStore.staleState (RefStore.updateKey "first" (VStr "B") sample).2 = true ∧
  RefStore.staleState
    (RefStore.run
       [RefStore.ForceRerender None; RefStore.GetValues;
        RefStore.ForceRerender (Some false); RefStore.RemoveKey "fourth"]
       (RefStore.updateKey "first" (VStr "B") sample).2) = true.
Proof.
  split; [reflexivity|].
  apply (staleState_never_reset
           [RefStore.ForceRerender None; RefStore.GetValues;
            RefStore.ForceRerender (Some false); RefStore.RemoveKey "fourth"]
           (RefStore.updateKey "first" (VStr "B") sample).2).
  reflexivity.
Defined.

Lemma clean_store_unchanged_witness :
  RefStore.staleState
    (RefStore.run
       [RefStore.RemoveKey "fourth"; RefStore.ForceRerender (Some false);
        RefStore.BatchRemoveKeys []] sample) = false ∧
  RefStore.values
    (RefStore.run
       [RefStore.RemoveKey "fourth"; RefStore.ForceRerender (Some false);
        RefStore.BatchRemoveKeys []] sample)
  = RefStore.values sample.
Proof.
  split; [reflexivity|].
  apply (clean_store_unchanged
           [RefStore.RemoveKey "fourth"; RefStore.ForceRerender (Some false);
            RefStore.BatchRemoveKeys []] sample).
  reflexivity.
Defined.

Lemma quiet_calls_do_nothing_witness :
  RefStore.staleState sample = false ∧
  forallb quiet
    [RefStore.ForceRerender None; RefStore.GetValues;
     RefStore.ForceRerender (Some true)] = true ∧
  RefStore.run
    [RefStore.ForceRerender None; RefStore.GetValues;
     RefStore.ForceRerender (Some true)] sample = sample.
Proof.
  split; [reflexivity|]. split; [reflexivity|].
  apply (quiet_calls_do_nothing
           [RefStore.ForceRerender None; RefStore.GetValues;
            RefStore.ForceRerender (Some true)] sample); reflexivity.
Defined.

Lemma mount_registers_witness :
  "second" ≠ "__proto__" ∧
  ∃ f s',
    RefStore.mount (Some (RefStore.useCapturedProviderValue false))
      "second" (Some VUndefined) sample = (Normal f, s') ∧
    RefStore.capturedState f = VStr "" ∧
    RefStore.values s' = <["second" := VStr ""]> (RefStore.values sample) ∧
    RefStore.staleState s' = true ∧
    RefStore.render s' = RefStore.render sample ∧
    RefStore.rerenders s' = RefStore.rerenders sample ∧
    RefStore.useCapturedValues
      (Some (RefStore.useCapturedProviderValue false)) s'
    = (Normal (VObject (RefStore.values s')), s').
Proof.
  split; [discriminate|].
  apply (mount_registers false "second" (Some VUndefined) sample).
  discriminate.
Defined.

Lemma field_keeps_store_in_step_witness :
  "second" ≠ "__proto__" ∧
  ∃ f s',
    RefStore.lifetime (Some (RefStore.useCapturedProviderValue false))
      "second" None [VStr "B"; VStr "B"; VStr "C"] sample = (Normal f, s') ∧
    RefStore.capturedState f = VStr "C" ∧
    RefStore.values s' = <["second" := VStr "C"]> (RefStore.values sample) ∧
    RefStore.staleState s' = true ∧
    RefStore.render s' = RefStore.render sample ∧
    RefStore.rerenders s' = RefStore.rerenders sample.
Proof.
  split; [discriminate|].
  apply (field_keeps_store_in_step false "second" None
           [VStr "B"; VStr "B"; VStr "C"] sample).
  discriminate.
Defined.

Lemma field_writes_through_witness :
  "first" ≠ "__proto__" ∧
  (∃ f,
     StateStore.lifetime (Some (StateStore.useCapturedProviderValue (plain ∅)))
       "first" (Some (VStr "A")) [VStr "B"] (plain ∅)
     = (Normal f, plain (<["first" := VStr "B"]> ∅)) ∧
     (StateStore.useCapturedState
        (Some (StateStore.useCapturedProviderValue
                 (plain (<["first" := VStr "B"]> ∅)))) f).1
     = Data (VStr "B")) ∧
  (∃ f,
     FormStore.lifetime (Some (FormStore.useCapturedProviderValue (plain ∅)))
       "first" (Some (VStr "A")) [VStr "B"] (plain ∅)
     = (Normal f, plain (<["first" := VStr "B"]> ∅)) ∧
     (FormStore.useCapturedState
        (Some (FormStore.useCapturedProviderValue
                 (plain (<["first" := VStr "B"]> ∅)))) f).1
     = Data (VStr "B")).
Proof.
  split; [discriminate|].
  apply (field_writes_through (plain ∅) "first" (Some (VStr "A")) [VStr "B"]
           (plain ∅)).
  discriminate.
Defined.

Lemma batchUpdateKeys_shadowed_throws_witness :
  is_Some (({[ "first" := VStr "B"; "hasOwnProperty" := VBool true ]}
            : gmap string value) !! "hasOwnProperty") ∧
  ∃ s',
    RefStore.batchUpdateKeys
      {[ "first" := VStr "B"; "hasOwnProperty" := VBool true ]} sample
    = (Throw TypeError, s') ∧
    RefStore.values s' = RefStore.values sample ∧
    RefStore.values_prototype s' = RefStore.values_prototype sample ∧
    RefStore.staleState s' = true ∧
    RefStore.render s' = RefStore.render sample ∧
    RefStore.rerenders s' = RefStore.rerenders sample.
Proof.
  assert (H : is_Some (({[ "first" := VStr "B"; "hasOwnProperty" := VBool true ]}
                        : gmap string value) !! "hasOwnProperty")).
  { exists (VBool true). reflexivity. }
  split; [exact H|].
  apply (batchUpdateKeys_shadowed_throws
           {[ "first" := VStr "B"; "hasOwnProperty" := VBool true ]} sample H).
Defined.
